(** * Voice engine of Grey Hat AI: segmentation loop, transcription bridge
      and synthesis cache

    A shallow embedding of [grey_hat_ai/voice_engine.py].  The methods of
    [VoiceEngine] become computations in a small monad that threads the
    engine object ([self]), accumulates a trace of observable effects and
    carries Python exceptions; [try ... except Exception] is [try_except].

    External collaborators (the numpy arrays, the Whisper model, the WebRTC
    classifier, the Eleven Labs client, user callbacks) are not part of the
    repository: they appear as oracles whose result is either a value or a
    raised exception. *)

From Stdlib Require Import ZArith QArith Qround Qabs List String Ascii Bool Lia.
From Stdlib Require Import Strings.Byte DecimalString.
Import ListNotations.

Local Open Scope string_scope.
Local Open Scope list_scope.
Local Open Scope Z_scope.

(* ------------------------------------------------------------------ *)
(** ** Python values and built-ins used by the module *)
(* ------------------------------------------------------------------ *)

Module Py.

(** Exceptions that the modelled code can see.  Everything coming out of
    an external library is an [ExternalError]; all of them are instances
    of [Exception], so every [except Exception] handler catches them. *)
Inductive exn : Type :=
| KeyError
| ZeroDivisionError
| OverflowError
| ValueError
| ExternalError (msg : string).

(** Result of evaluating a Python expression or call. *)
Inductive outcome (A : Type) : Type :=
| Returns (a : A)
| Raises (e : exn).
Arguments Returns {A} a.
Arguments Raises {A} e.

Definition bytes := list Byte.byte.

(** *** Floats

    A Python float is an IEEE 754 binary64 number: a finite value, which
    is a rational, an infinity or a NaN.  The sign of a zero is left out:
    no operation below tells the two zeros apart. *)
Inductive float : Type :=
| Finite (q : Q)
| Infinity (negative : bool)
| NaN.

Definition pow2 (k : Z) : Q := Qpower 2 k.

(** The largest [k] with [2 ^ k <= a], for a positive [a]. *)
Definition ilog2 (a : Q) : Z :=
  let k := Z.log2 (Qnum a) - Z.log2 (Zpos (Qden a)) in
  if Qle_bool (pow2 k) a then k else k - 1.

(** The integer nearest to a non-negative [x], ties to the even one. *)
Definition round_half_even (x : Q) : Z :=
  let f := Qfloor x in
  match Qcompare (x - inject_Z f) (1 # 2) with
  | Lt => f
  | Gt => f + 1
  | Eq => if Z.even f then f else f + 1
  end.

Definition is_negative (q : Q) : bool := Qnum q <? 0.

(** The float nearest to the real number [q], as the hardware rounds the
    exact result of an operation and as a literal is read: 53 bits of
    mantissa, the smallest exponent [-1074] (subnormal numbers), ties
    to even, and an infinity from [2 ^ 1024] on. *)
Definition binary64 (q : Q) : float :=
  if Qeq_bool q 0 then Finite 0
  else
    let a := Qabs q in
    let e := Z.max (ilog2 a - 52) (-1074) in
    let m := round_half_even (a / pow2 e) in
    let r := Qred (inject_Z m * pow2 e) in
    if Qle_bool (pow2 1024) r then Infinity (is_negative q)
    else Finite (if is_negative q then - r else r)%Q.

Definition is_zero (x : float) : bool :=
  match x with Finite q => Qeq_bool q 0 | _ => false end.

Definition sign_of (x : float) : bool :=
  match x with Finite q => is_negative q | Infinity s => s | NaN => false end.

(** [x * y] on floats: it never raises, an overflow gives an infinity. *)
Definition float_mul (x y : float) : float :=
  match x, y with
  | NaN, _ | _, NaN => NaN
  | Finite a, Finite b => binary64 (a * b)
  | Infinity s, other | other, Infinity s =>
      if is_zero other then NaN else Infinity (xorb s (sign_of other))
  end.

(** [x / y] on floats: it raises on a zero divisor only, an overflow
    gives an infinity. *)
Definition truediv (x y : float) : outcome float :=
  if is_zero y then Raises ZeroDivisionError
  else Returns
    match x, y with
    | NaN, _ | _, NaN => NaN
    | Finite a, Finite b => binary64 (a / b)
    | Infinity _, Infinity _ => NaN
    | Infinity s, Finite b => Infinity (xorb s (is_negative b))
    | Finite _, Infinity _ => Finite 0
    end.

(** The float an integer operand is converted to before it meets a
    float: [OverflowError] when the integer is too large. *)
Definition float_of_int (n : Z) : outcome float :=
  match binary64 (inject_Z n) with
  | Finite q => Returns (Finite q)
  | _ => Raises OverflowError
  end.

(** [int(x)] on a float: truncation towards zero, [OverflowError] on an
    infinity and [ValueError] on a NaN. *)
Definition int_of_float (x : float) : outcome Z :=
  match x with
  | Finite q => Returns (Z.quot (Qnum q) (Zpos (Qden q)))
  | Infinity _ => Raises OverflowError
  | NaN => Raises ValueError
  end.

(** [int(n * k / d)] for integers [n], [k] and a positive literal [d]:
    the integer product, a true division and the truncation of its
    result (exact as long as [n * k] fits the 53 bits of a float). *)
Definition int_muldiv (n k d : Z) : Z := Z.quot (n * k) d.

(** [len(xs)]. *)
Definition len {A : Type} (xs : list A) : Z := Z.of_nat (List.length xs).

(** [xs[:k]], including Python's meaning of a negative bound. *)
Definition slice_to {A : Type} (k : Z) (xs : list A) : list A :=
  if k <? 0 then firstn (Z.to_nat (len xs + k)) xs
  else firstn (Z.to_nat k) xs.

(** Truthiness of a list ([if xs:]) and of a string ([if s:]). *)
Definition truthy_list {A : Type} (xs : list A) : bool :=
  match xs with [] => false | _ :: _ => true end.

Definition truthy_str (s : string) : bool :=
  match s with EmptyString => false | String _ _ => true end.

(** [x or default] for an optional string: [None] and [""] are falsy. *)
Definition str_or (x : option string) (default : string) : string :=
  match x with
  | Some s => if truthy_str s then s else default
  | None => default
  end.

(** [str(n)] for an integer, as an f-string renders it. *)
Definition str_of_int (n : Z) : string := NilZero.string_of_int (Z.to_int n).

(** *** [str.strip]

    A [str] is held as its UTF-8 encoding, which is what a string
    literal of this file holds: a character of the ASCII range is one
    byte and U+00A0 is the two bytes 194 160.  [str.strip()] removes the
    characters that [str.isspace] accepts: U+0009 to U+000D, U+001C to
    U+0020, U+0085, U+00A0, U+1680, U+2000 to U+200A, U+2028, U+2029,
    U+202F, U+205F and U+3000.  They are encoded on one, two or three
    bytes. *)
Definition is_space (c : ascii) : bool :=
  let n := nat_of_ascii c in
  ((9 <=? n) && (n <=? 13) || (28 <=? n) && (n <=? 32))%nat.

(** U+0085 and U+00A0. *)
Definition is_space2 (c1 c2 : ascii) : bool :=
  let n1 := nat_of_ascii c1 in
  let n2 := nat_of_ascii c2 in
  ((n1 =? 194) && ((n2 =? 133) || (n2 =? 160)))%nat.

(** U+1680; U+2000 to U+200A, U+2028, U+2029 and U+202F; U+205F;
    U+3000. *)
Definition is_space3 (c1 c2 c3 : ascii) : bool :=
  let n1 := nat_of_ascii c1 in
  let n2 := nat_of_ascii c2 in
  let n3 := nat_of_ascii c3 in
  ((n1 =? 225) && (n2 =? 154) && (n3 =? 128)
   || (n1 =? 226) && (n2 =? 128)
      && ((128 <=? n3) && (n3 <=? 138)
          || (n3 =? 168) || (n3 =? 169) || (n3 =? 175))
   || (n1 =? 226) && (n2 =? 129) && (n3 =? 159)
   || (n1 =? 227) && (n2 =? 128) && (n3 =? 128))%nat.

(** Removal of the leading characters that one of three tests accepts,
    on one, two and three bytes. *)
Fixpoint lstrip_with (sp1 : ascii -> bool) (sp2 : ascii -> ascii -> bool)
    (sp3 : ascii -> ascii -> ascii -> bool) (s : string) : string :=
  match s with
  | EmptyString => EmptyString
  | String c1 r1 =>
      if sp1 c1 then lstrip_with sp1 sp2 sp3 r1
      else
        match r1 with
        | EmptyString => s
        | String c2 r2 =>
            if sp2 c1 c2 then lstrip_with sp1 sp2 sp3 r2
            else
              match r2 with
              | EmptyString => s
              | String c3 r3 =>
                  if sp3 c1 c2 c3 then lstrip_with sp1 sp2 sp3 r3 else s
              end
        end
  end.

(** [s.lstrip()]. *)
Definition lstrip (s : string) : string :=
  lstrip_with is_space is_space2 is_space3 s.

Fixpoint rev_append_str (s acc : string) : string :=
  match s with
  | EmptyString => acc
  | String c s' => rev_append_str s' (String c acc)
  end.

Definition rev_str (s : string) : string := rev_append_str s EmptyString.

(** [lstrip] on a string whose bytes are in reverse order: the bytes of a
    character come last byte first. *)
Definition lstrip_reversed (s : string) : string :=
  lstrip_with is_space (fun c2 c1 => is_space2 c1 c2)
    (fun c3 c2 c1 => is_space3 c1 c2 c3) s.

(** [s.strip()]: the leading whitespace goes, then the trailing. *)
Definition strip (s : string) : string :=
  rev_str (lstrip_reversed (rev_str (lstrip s))).

(** [sep.join(parts)]. *)
Definition join (sep : string) (parts : list string) : string :=
  String.concat sep parts.

(** *** Insertion-ordered [dict] with string keys

    A Python dict iterates in insertion order; assigning to a key that is
    already present keeps its position, a new key goes to the end. *)
Section Dict.
Context {V : Type}.

Definition dict := list (string * V).

Fixpoint dict_mem (k : string) (d : dict) : bool :=
  match d with
  | [] => false
  | (k', _) :: d' => if String.eqb k k' then true else dict_mem k d'
  end.

(** [d[k]]: [None] stands for the [KeyError]. *)
Fixpoint dict_get (k : string) (d : dict) : option V :=
  match d with
  | [] => None
  | (k', v) :: d' => if String.eqb k k' then Some v else dict_get k d'
  end.

(** [d[k] = v]. *)
Fixpoint dict_set (k : string) (v : V) (d : dict) : dict :=
  match d with
  | [] => [(k, v)]
  | (k', v') :: d' =>
      if String.eqb k k' then (k', v) :: d' else (k', v') :: dict_set k v d'
  end.

(** [del d[k]]: [None] stands for the [KeyError]. *)
Fixpoint dict_del (k : string) (d : dict) : option dict :=
  match d with
  | [] => None
  | (k', v') :: d' =>
      if String.eqb k k' then Some d'
      else match dict_del k d' with
           | Some d'' => Some ((k', v') :: d'')
           | None => None
           end
  end.

(** [list(d.keys())]. *)
Definition dict_keys (d : dict) : list string := map fst d.
End Dict.
Arguments dict V : clear implicits.

(** Whether the strings of a list are pairwise distinct. *)
Fixpoint distinct (xs : list string) : bool :=
  match xs with
  | [] => true
  | x :: xs' => negb (existsb (String.eqb x) xs') && distinct xs'
  end.

End Py.
Import Py.

(* ------------------------------------------------------------------ *)
(** ** Computations: state, trace and exceptions *)
(* ------------------------------------------------------------------ *)

(** A computation runs on a state [S], appends effects of type [T] to a
    trace and either returns a value or raises.  As in Python, what was
    done before an exception stays done. *)
Definition M (S T A : Type) : Type := S -> outcome A * S * list T.

Definition ret {S T A} (a : A) : M S T A := fun s => (Returns a, s, []).

Definition bind {S T A B} (m : M S T A) (f : A -> M S T B) : M S T B :=
  fun s =>
    match m s with
    | (Returns a, s1, t1) =>
        match f a s1 with
        | (r, s2, t2) => (r, s2, t1 ++ t2)
        end
    | (Raises e, s1, t1) => (Raises e, s1, t1)
    end.

(** A call into code outside the repository. *)
Definition lift {S T A} (o : outcome A) : M S T A := fun s => (o, s, []).

Definition get {S T} : M S T S := fun s => (Returns s, s, []).

Definition modify {S T} (f : S -> S) : M S T unit := fun s => (Returns tt, f s, []).

Definition emit {S T} (x : T) : M S T unit := fun s => (Returns tt, s, [x]).

(** [try: body except Exception as e: handler e]. *)
Definition try_except {S T A} (body : M S T A) (handler : exn -> M S T A) : M S T A :=
  fun s =>
    match body s with
    | (Returns a, s1, t1) => (Returns a, s1, t1)
    | (Raises e, s1, t1) =>
        match handler e s1 with
        | (r, s2, t2) => (r, s2, t1 ++ t2)
        end
    end.

(** [for x in xs: body x]. *)
Fixpoint for_each {S T A} (xs : list A) (body : A -> M S T unit) : M S T unit :=
  match xs with
  | [] => ret tt
  | x :: xs' => bind (body x) (fun _ => for_each xs' body)
  end.

Definition result_of {A S T} (r : outcome A * S * list T) : outcome A := fst (fst r).
Definition state_of {A S T} (r : outcome A * S * list T) : S := snd (fst r).
Definition trace_of {A S T} (r : outcome A * S * list T) : list T := snd r.

Declare Scope py_scope.
Delimit Scope py_scope with py.
Notation "x <- c1 ;; c2" := (bind c1 (fun x => c2))
  (at level 61, c1 at next level, right associativity) : py_scope.
Notation "c1 ;; c2" := (bind c1 (fun _ => c2))
  (at level 61, right associativity) : py_scope.
Local Open Scope py_scope.

(* ------------------------------------------------------------------ *)
(** ** The process the engine runs in *)
(* ------------------------------------------------------------------ *)

(** What the module finds when it is imported, fixed for the life of the
    process: which optional packages imported, the numpy operations on
    audio blocks (floating point, kept abstract) and the built-in [hash]
    on strings. *)
Class Platform : Type := {
  ndarray : Type;
  (** [(chunk * 32767).astype(np.int16).tobytes()] *)
  pcm16_bytes : ndarray -> bytes;
  (** [audio_data] brought to dtype [float32] *)
  as_float32 : ndarray -> ndarray;
  (** [np.concatenate] *)
  concatenate : list ndarray -> outcome ndarray;
  (** [hash(text)] *)
  hash : string -> Z;
  (** [sd] and [np] are not [None] *)
  have_audio : bool;
  (** [WhisperModel] is not [None] *)
  have_whisper : bool;
  (** [webrtcvad] is not [None] *)
  have_webrtcvad : bool;
  (** [generate], [set_api_key], [voices] and [Voice] are not [None] *)
  have_elevenlabs : bool
}.

(** [VoiceConfig], with its dataclass defaults.  A float field is given
    by the rational its literal denotes; the float it holds is
    [binary64] of it, so that every finite float can be given, by its
    own value. *)
Record VoiceConfig : Type := {
  whisper_model_size : string;
  sample_rate : Z;
  chunk_duration : Q;
  vad_aggressiveness : Z;
  silence_threshold : Q;
  elevenlabs_voice_id : string;
  elevenlabs_stability : Q;
  elevenlabs_clarity : Q;
  elevenlabs_style : Q;
  audio_device : option Z
}.

Definition VoiceConfig_default : VoiceConfig := {|
  whisper_model_size := "base";
  sample_rate := 16000;
  chunk_duration := 1 # 2;
  vad_aggressiveness := 2;
  silence_threshold := 2 # 1;
  elevenlabs_voice_id := "21m00Tcm4TlvDq8ikWAM";
  elevenlabs_stability := 3 # 4;
  elevenlabs_clarity := 3 # 4;
  elevenlabs_style := 0 # 1;
  audio_device := None
|}.

Inductive VoiceEvent : Type :=
| SpeechDetected (text : string)
| ListeningStarted
| ListeningStopped.

Inductive level : Type := Info | Warning | Error.

Inductive thread : Type := RecordingThread.

(* ------------------------------------------------------------------ *)
(** ** The [VoiceEngine] object and its methods *)
(* ------------------------------------------------------------------ *)

Section Engine.
Context {P : Platform}.

(** [WhisperModel.transcribe] followed by the iteration over its
    segments: the texts of the segments, or an exception. *)
Definition Whisper : Type := ndarray -> outcome (list string).

(** [webrtcvad.Vad.is_speech(frame, sample_rate)]. *)
Definition Vad : Type := bytes -> Z -> outcome bool.

(** [elevenlabs.generate(text, voice=Voice(voice_id, settings))], with
    stability, similarity boost and style. *)
Definition Generate : Type := string -> string -> Q -> Q -> Q -> outcome bytes.

Record VoiceEngine : Type := {
  config : VoiceConfig;
  whisper_model : option Whisper;
  vad : option Vad;
  elevenlabs_configured : bool;
  is_listening : bool;
  recording_thread : option thread;
  on_speech_detected : option (string -> outcome unit);
  on_listening_start : option (outcome unit);
  on_listening_stop : option (outcome unit);
  tts_cache : dict bytes
}.

(** What a run of the engine lets the outside see.  [Utterance],
    [Transcribe] and [Synthesize] mark the hand-over of a buffer to
    transcription and the calls to the two external engines. *)
Inductive Effect : Type :=
| Callback (ev : VoiceEvent)
| ThreadStart
| ThreadJoin
| Utterance (frames : list ndarray)
| Transcribe (audio : ndarray)
| Synthesize (text voice_id : string)
| Log (lvl : level) (msg : string).

Definition Eng : Type -> Type := M VoiceEngine Effect.

(** *** Attribute assignment *)

Definition set_whisper_model (w : option Whisper) (s : VoiceEngine) : VoiceEngine :=
  {| config := config s; whisper_model := w; vad := vad s;
     elevenlabs_configured := elevenlabs_configured s;
     is_listening := is_listening s; recording_thread := recording_thread s;
     on_speech_detected := on_speech_detected s;
     on_listening_start := on_listening_start s;
     on_listening_stop := on_listening_stop s; tts_cache := tts_cache s |}.

Definition set_vad (v : option Vad) (s : VoiceEngine) : VoiceEngine :=
  {| config := config s; whisper_model := whisper_model s; vad := v;
     elevenlabs_configured := elevenlabs_configured s;
     is_listening := is_listening s; recording_thread := recording_thread s;
     on_speech_detected := on_speech_detected s;
     on_listening_start := on_listening_start s;
     on_listening_stop := on_listening_stop s; tts_cache := tts_cache s |}.

Definition set_elevenlabs_configured (b : bool) (s : VoiceEngine) : VoiceEngine :=
  {| config := config s; whisper_model := whisper_model s; vad := vad s;
     elevenlabs_configured := b;
     is_listening := is_listening s; recording_thread := recording_thread s;
     on_speech_detected := on_speech_detected s;
     on_listening_start := on_listening_start s;
     on_listening_stop := on_listening_stop s; tts_cache := tts_cache s |}.

Definition set_is_listening (b : bool) (s : VoiceEngine) : VoiceEngine :=
  {| config := config s; whisper_model := whisper_model s; vad := vad s;
     elevenlabs_configured := elevenlabs_configured s;
     is_listening := b; recording_thread := recording_thread s;
     on_speech_detected := on_speech_detected s;
     on_listening_start := on_listening_start s;
     on_listening_stop := on_listening_stop s; tts_cache := tts_cache s |}.

Definition set_recording_thread (t : option thread) (s : VoiceEngine) : VoiceEngine :=
  {| config := config s; whisper_model := whisper_model s; vad := vad s;
     elevenlabs_configured := elevenlabs_configured s;
     is_listening := is_listening s; recording_thread := t;
     on_speech_detected := on_speech_detected s;
     on_listening_start := on_listening_start s;
     on_listening_stop := on_listening_stop s; tts_cache := tts_cache s |}.

Definition set_on_speech_detected (c : option (string -> outcome unit))
    (s : VoiceEngine) : VoiceEngine :=
  {| config := config s; whisper_model := whisper_model s; vad := vad s;
     elevenlabs_configured := elevenlabs_configured s;
     is_listening := is_listening s; recording_thread := recording_thread s;
     on_speech_detected := c;
     on_listening_start := on_listening_start s;
     on_listening_stop := on_listening_stop s; tts_cache := tts_cache s |}.

Definition set_tts_cache (d : dict bytes) (s : VoiceEngine) : VoiceEngine :=
  {| config := config s; whisper_model := whisper_model s; vad := vad s;
     elevenlabs_configured := elevenlabs_configured s;
     is_listening := is_listening s; recording_thread := recording_thread s;
     on_speech_detected := on_speech_detected s;
     on_listening_start := on_listening_start s;
     on_listening_stop := on_listening_stop s; tts_cache := d |}.

Definition log (lvl : level) (msg : string) : Eng unit := emit (Log lvl msg).

(** Calling a registered callback: the event reaches the consumer, and
    the callback itself may raise. *)
Definition invoke (ev : VoiceEvent) (cb : outcome unit) : Eng unit :=
  emit (Callback ev) ;; lift cb.

(** *** Construction *)

Definition _initialize_components
    (WhisperModel : string -> outcome Whisper)
    (webrtcvad_Vad : Z -> outcome Vad) : Eng unit :=
  try_except
    (self <- get ;;
     (if have_whisper then
        log Info "Loading Whisper model" ;;
        w <- lift (WhisperModel (whisper_model_size (config self))) ;;
        modify (set_whisper_model (Some w)) ;;
        log Info "Whisper model loaded successfully"
      else log Warning "faster-whisper not available, STT disabled") ;;
     (if have_webrtcvad then
        v <- lift (webrtcvad_Vad (vad_aggressiveness (config self))) ;;
        modify (set_vad (Some v)) ;;
        log Info "Voice Activity Detection initialized"
      else log Warning "webrtcvad not available, VAD disabled"))
    (fun _ => log Error "Error initializing voice components").

(** The attributes [__init__] assigns before it initialises the
    components. *)
Definition VoiceEngine_fresh (cfg : option VoiceConfig) : VoiceEngine :=
  {| config := match cfg with Some c => c | None => VoiceConfig_default end;
     whisper_model := None; vad := None;
     elevenlabs_configured := false;
     is_listening := false; recording_thread := None;
     on_speech_detected := None; on_listening_start := None;
     on_listening_stop := None; tts_cache := [] |}.

Definition __init__ (cfg : option VoiceConfig)
    (WhisperModel : string -> outcome Whisper)
    (webrtcvad_Vad : Z -> outcome Vad)
  : outcome unit * VoiceEngine * list Effect :=
  _initialize_components WhisperModel webrtcvad_Vad (VoiceEngine_fresh cfg).

Definition set_elevenlabs_api_key (set_api_key : string -> outcome unit)
    (api_key : string) : Eng bool :=
  if negb have_elevenlabs then
    log Error "elevenlabs package not available" ;; ret false
  else
    try_except
      (lift (set_api_key api_key) ;;
       modify (set_elevenlabs_configured true) ;;
       log Info "Eleven Labs API configured successfully" ;;
       ret true)
      (fun _ => log Error "Failed to configure Eleven Labs API" ;; ret false).

(** *** Starting and stopping the capture thread *)

Definition start_listening (callback : option (string -> outcome unit)) : Eng unit :=
  self <- get ;;
  if is_listening self then log Warning "Already listening"
  else match whisper_model self with
  | None => log Error "Whisper model not available"
  | Some _ =>
    if negb have_audio then log Error "sounddevice or numpy not available"
    else
      (match callback with
       | Some cb => modify (set_on_speech_detected (Some cb))
       | None => ret tt
       end) ;;
      modify (set_is_listening true) ;;
      modify (set_recording_thread (Some RecordingThread)) ;;
      emit ThreadStart ;;
      (match on_listening_start self with
       | Some cb => invoke ListeningStarted cb
       | None => ret tt
       end) ;;
      log Info "Started listening for speech"
  end.

Definition stop_listening : Eng unit :=
  self <- get ;;
  if negb (is_listening self) then ret tt
  else
    modify (set_is_listening false) ;;
    (match recording_thread self with
     | Some _ => emit ThreadJoin
     | None => ret tt
     end) ;;
    (match on_listening_stop self with
     | Some cb => invoke ListeningStopped cb
     | None => ret tt
     end) ;;
    log Info "Stopped listening for speech".

(** *** Voice-activity classification of one chunk *)

Definition _is_speech (audio_bytes : bytes) : Eng bool :=
  self <- get ;;
  match vad self with
  | None => ret true
  | Some v =>
    try_except
      (let frame_duration := 30 in
       let frame_size := int_muldiv (sample_rate (config self)) frame_duration 1000 in
       if len audio_bytes <? frame_size * 2 then ret false
       else
         let frame := slice_to (frame_size * 2) audio_bytes in
         lift (v frame (sample_rate (config self))))
      (fun _ => log Error "VAD error" ;; ret true)
  end.

(** *** Transcription of a finished buffer *)

Definition _transcribe_audio (audio_data : ndarray) : Eng string :=
  self <- get ;;
  match whisper_model self with
  | None => ret ""
  | Some model =>
    try_except
      (emit (Transcribe (as_float32 audio_data)) ;;
       segments <- lift (model (as_float32 audio_data)) ;;
       let text := join " " segments in
       ret (strip text))
      (fun _ => log Error "Transcription error" ;; ret "")
  end.

Definition _process_audio_buffer (audio_buffer : list ndarray) : Eng unit :=
  if negb (truthy_list audio_buffer) then ret tt
  else
    try_except
      (emit (Utterance audio_buffer) ;;
       audio_data <- lift (concatenate audio_buffer) ;;
       text <- _transcribe_audio audio_data ;;
       self <- get ;;
       if truthy_str text && truthy_str (strip text) then
         match on_speech_detected self with
         | Some cb => invoke (SpeechDetected (strip text)) (cb (strip text))
         | None => ret tt
         end
       else ret tt)
      (fun _ => log Error "Error processing audio buffer").

(** *** The recording loop *)

(** The two local variables of [_recording_loop] that survive an
    iteration. *)
Record Locals : Type := {
  audio_buffer : list ndarray;
  silence_chunks : Z
}.

(** [self.audio_queue.get(timeout=0.1)]: a chunk, or [queue.Empty]. *)
Inductive QueueGet : Type :=
| Got (chunk : ndarray)
| QueueEmpty.

Inductive LoopCtl : Type :=
| Continue (loc : Locals)
| Break.

(** One pass through the body of [while self.is_listening]. *)
Definition loop_body (max_silence_chunks : Z) (item : QueueGet) (loc : Locals)
  : Eng LoopCtl :=
  match item with
  | QueueEmpty => ret (Continue loc)
  | Got chunk =>
    try_except
      (is_speech <- _is_speech (pcm16_bytes chunk) ;;
       let loc1 :=
         if is_speech then
           {| audio_buffer := audio_buffer loc ++ [chunk]; silence_chunks := 0 |}
         else
           {| audio_buffer :=
                if truthy_list (audio_buffer loc) then audio_buffer loc ++ [chunk]
                else audio_buffer loc;
              silence_chunks := silence_chunks loc + 1 |} in
       if truthy_list (audio_buffer loc1)
          && (max_silence_chunks <=? silence_chunks loc1) then
         _process_audio_buffer (audio_buffer loc1) ;;
         ret (Continue {| audio_buffer := []; silence_chunks := 0 |})
       else ret (Continue loc1))
      (fun _ => log Error "Error in recording loop" ;; ret Break)
  end.

(** The [while] loop over what the queue delivers; it returns the locals
    it ends with. *)
Fixpoint while_listening (max_silence_chunks : Z) (items : list QueueGet)
    (loc : Locals) : Eng Locals :=
  match items with
  | [] => ret loc
  | item :: rest =>
    self <- get ;;
    if is_listening self then
      ctl <- loop_body max_silence_chunks item loc ;;
      match ctl with
      | Continue loc' => while_listening max_silence_chunks rest loc'
      | Break => ret loc
      end
    else ret loc
  end.

Definition Locals_initial : Locals := {| audio_buffer := []; silence_chunks := 0 |}.

(** [int(self.config.silence_threshold / self.config.chunk_duration)]:
    the quotient of two floats, rounded as a float, then truncated. *)
Definition max_silence_chunks_of (cfg : VoiceConfig) : outcome Z :=
  match truediv (binary64 (silence_threshold cfg))
          (binary64 (chunk_duration cfg)) with
  | Returns x => int_of_float x
  | Raises e => Raises e
  end.

(** [int(self.config.sample_rate * self.config.chunk_duration)]: the
    integer becomes a float, the product is rounded as a float, then
    truncated. *)
Definition chunk_size_of (cfg : VoiceConfig) : outcome Z :=
  match float_of_int (sample_rate cfg) with
  | Returns rate => int_of_float (float_mul rate (binary64 (chunk_duration cfg)))
  | Raises e => Raises e
  end.

(** [_recording_loop], run against a device: [InputStream] is the
    attempt to open the stream with the given block size, [items] what
    the queue delivers afterwards. *)
Definition _recording_loop (InputStream : Z -> outcome unit)
    (items : list QueueGet) : Eng unit :=
  self <- get ;;
  chunk_size <- lift (chunk_size_of (config self)) ;;
  max_silence_chunks <- lift (max_silence_chunks_of (config self)) ;;
  try_except
    (lift (InputStream chunk_size) ;;
     while_listening max_silence_chunks items Locals_initial ;;
     ret tt)
    (fun _ => log Error "Error starting audio stream").

(** *** Cached speech synthesis *)

(** [f"{voice_id}:{hash(text)}"]. *)
Definition cache_key (voice_id text : string) : string :=
  String.append voice_id (String.append ":" (str_of_int (hash text))).

(** [self.tts_cache[key]]. *)
Definition cache_getitem (key : string) : Eng bytes :=
  self <- get ;;
  match dict_get key (tts_cache self) with
  | Some audio => ret audio
  | None => lift (Raises KeyError)
  end.

(** [del self.tts_cache[key]]. *)
Definition cache_delitem (key : string) : Eng unit :=
  self <- get ;;
  match dict_del key (tts_cache self) with
  | Some d => modify (set_tts_cache d)
  | None => lift (Raises KeyError)
  end.

Definition text_to_speech (generate : Generate) (text : string)
    (voice_id : option string) : Eng (option bytes) :=
  self <- get ;;
  if negb (elevenlabs_configured self) || negb have_elevenlabs then
    log Error "Eleven Labs not configured or available" ;; ret None
  else
    let voice_id := str_or voice_id (elevenlabs_voice_id (config self)) in
    let cache_key := cache_key voice_id text in
    if dict_mem cache_key (tts_cache self) then
      audio <- cache_getitem cache_key ;; ret (Some audio)
    else
      try_except
        (emit (Synthesize text voice_id) ;;
         audio <- lift (generate text voice_id
                          (elevenlabs_stability (config self))
                          (elevenlabs_clarity (config self))
                          (elevenlabs_style (config self))) ;;
         modify (fun s => set_tts_cache (dict_set cache_key audio (tts_cache s)) s) ;;
         self <- get ;;
         (if 50 <? len (tts_cache self) then
            let oldest_keys := slice_to 10 (dict_keys (tts_cache self)) in
            for_each oldest_keys cache_delitem
          else ret tt) ;;
         ret (Some audio))
        (fun _ => log Error "TTS error" ;; ret None).

End Engine.

(* ------------------------------------------------------------------ *)
(** ** Vocabulary of the properties *)
(* ------------------------------------------------------------------ *)

Section Vocabulary.
Context {P : Platform}.

(** The buffers handed to transcription during a run, in order. *)
Definition utterances (t : list Effect) : list (list ndarray) :=
  flat_map (fun e => match e with Utterance frames => [frames] | _ => [] end) t.

(** The texts delivered through [on_speech_detected] during a run. *)
Definition speech_events (t : list Effect) : list string :=
  flat_map (fun e => match e with Callback (SpeechDetected s) => [s] | _ => [] end) t.

(** The calls made to the synthesis engine during a run. *)
Definition synthesis_calls (t : list Effect) : list (string * string) :=
  flat_map (fun e => match e with Synthesize s v => [(s, v)] | _ => [] end) t.

(** The recognition engine is of no use to [self]: there is no model, or
    the model raises whatever audio it is given. *)
Definition recognition_fails (self : VoiceEngine) : Prop :=
  match whisper_model self with
  | None => True
  | Some model => forall audio, exists e, model audio = Raises e
  end.

(** The recognition engine fails on one audio: there is no model, or the
    model raises on this audio, whatever it does on others. *)
Definition recognition_fails_on (self : VoiceEngine) (audio : ndarray) : Prop :=
  match whisper_model self with
  | None => True
  | Some model => exists e, model (as_float32 audio) = Raises e
  end.

(** The recognition engine fails on one utterance: on the audio its
    chunks concatenate to. *)
Definition utterance_fails (self : VoiceEngine) (buffer : list ndarray) : Prop :=
  forall audio, concatenate buffer = Returns audio -> recognition_fails_on self audio.

(** The speech events one utterance gives rise to on [self]. *)
Definition events_of (self : VoiceEngine) (buffer : list ndarray) : list string :=
  speech_events (trace_of (_process_audio_buffer buffer self)).

(** The verdict of [_is_speech] on a chunk as the loop asks for it. *)
Definition classified (self : VoiceEngine) (chunk : ndarray) (b : bool) : Prop :=
  result_of (_is_speech (pcm16_bytes chunk) self) = Returns b.

(** What one chunk with a known verdict does to the loop's locals:
    the buffer handed on, if any, and the locals afterwards. *)
Definition accumulate (max_silence_chunks : Z) (is_speech : bool)
    (chunk : ndarray) (loc : Locals) : option (list ndarray) * Locals :=
  let buffer1 :=
    if is_speech then audio_buffer loc ++ [chunk]
    else if truthy_list (audio_buffer loc) then audio_buffer loc ++ [chunk]
         else audio_buffer loc in
  let silence1 := if is_speech then 0 else silence_chunks loc + 1 in
  if truthy_list buffer1 && (max_silence_chunks <=? silence1) then
    (Some buffer1, Locals_initial)
  else (None, {| audio_buffer := buffer1; silence_chunks := silence1 |}).

(** A stream of chunks with known verdicts, folded through
    [accumulate]. *)
Fixpoint segment (max_silence_chunks : Z) (frames : list (bool * ndarray))
    (loc : Locals) : list (list ndarray) * Locals :=
  match frames with
  | [] => ([], loc)
  | (b, chunk) :: rest =>
      match accumulate max_silence_chunks b chunk loc with
      | (Some u, loc') =>
          let '(us, final) := segment max_silence_chunks rest loc' in
          (u :: us, final)
      | (None, loc') => segment max_silence_chunks rest loc'
      end
  end.

(** The chunks among what the queue delivered. *)
Definition chunks_of (items : list QueueGet) : list ndarray :=
  flat_map (fun item => match item with Got chunk => [chunk] | QueueEmpty => [] end)
    items.

(** One call of [text_to_speech] in a sequence: the behaviour of the
    synthesis engine at that moment and the two arguments. *)
Record TtsCall : Type := {
  call_generate : Generate;
  call_text : string;
  call_voice : option string
}.

Definition run_call (c : TtsCall) (self : VoiceEngine) : VoiceEngine :=
  state_of (text_to_speech (call_generate c) (call_text c) (call_voice c) self).

Fixpoint run_calls (calls : list TtsCall) (self : VoiceEngine) : VoiceEngine :=
  match calls with
  | [] => self
  | c :: rest => run_calls rest (run_call c self)
  end.

(** The cache key a call computes on [self]. *)
Definition call_key (self : VoiceEngine) (c : TtsCall) : string :=
  cache_key (str_or (call_voice c) (elevenlabs_voice_id (config self))) (call_text c).

(** What the synthesis engine answers to a call made on [self]. *)
Definition call_answer (self : VoiceEngine) (c : TtsCall) : outcome bytes :=
  call_generate c (call_text c)
    (str_or (call_voice c) (elevenlabs_voice_id (config self)))
    (elevenlabs_stability (config self))
    (elevenlabs_clarity (config self))
    (elevenlabs_style (config self)).

Definition call_succeeds (self : VoiceEngine) (c : TtsCall) : Prop :=
  exists audio, call_answer self c = Returns audio.

End Vocabulary.

(* ------------------------------------------------------------------ *)
(** ** A concrete process, for running the model *)
(* ------------------------------------------------------------------ *)

Module Sample.

(** Audio blocks are already 16-bit PCM bytes; every package imported. *)
Definition platform : Platform := {|
  ndarray := bytes;
  pcm16_bytes := fun chunk => chunk;
  as_float32 := fun audio => audio;
  concatenate := fun blocks => Returns (List.concat blocks);
  hash := fun text => Z.of_nat (String.length text);
  have_audio := true;
  have_whisper := true;
  have_webrtcvad := true;
  have_elevenlabs := true
|}.

(** A classifier with the shape check of the WebRTC one: it raises on a
    frame that is not 10, 20 or 30 ms at 8, 16, 32 or 48 kHz, and calls
    speech a frame with a non-zero byte. *)
Definition shape_checking_vad : Vad :=
  fun frame rate =>
    if ((rate =? 8000) || (rate =? 16000) || (rate =? 32000) || (rate =? 48000))
       && ((len frame =? 2 * (rate * 10 / 1000))
           || (len frame =? 2 * (rate * 20 / 1000))
           || (len frame =? 2 * (rate * 30 / 1000)))
    then Returns (existsb (fun b => negb (Byte.eqb b Byte.x00)) frame)
    else Raises (ExternalError "Error while processing frame").

(** A recognition model that hears one segment per call. *)
Definition one_segment_whisper : @Whisper platform :=
  fun _ => Returns [" hello "].

Definition failing_whisper : @Whisper platform :=
  fun _ => Raises (ExternalError "model failure").

(** A synthesis engine that answers with the length of the text. *)
Definition echo_generate : Generate :=
  fun text _ _ _ _ => Returns (repeat Byte.x2a (String.length text)).

Definition failing_generate : Generate :=
  fun _ _ _ _ _ => Raises (ExternalError "synthesis failure").

(** The engine as [__init__] leaves it when both components load. *)
Definition engine (cfg : VoiceConfig) : @VoiceEngine platform :=
  state_of (__init__ (P := platform) (Some cfg)
              (fun _ => Returns one_segment_whisper)
              (fun _ => Returns shape_checking_vad)).

Definition idle : @VoiceEngine platform := engine VoiceConfig_default.

Definition listening : @VoiceEngine platform :=
  state_of (start_listening (P := platform) None idle).

(** The same engine without a classifier. *)
Definition listening_no_vad : @VoiceEngine platform := set_vad None listening.

(** The same engine with a recognition model that raises. *)
Definition listening_deaf : @VoiceEngine platform :=
  set_whisper_model (Some failing_whisper)
    (set_on_speech_detected (Some (fun _ => Returns tt)) listening).

(** An engine whose Eleven Labs key has been set. *)
Definition configured : @VoiceEngine platform :=
  state_of (set_elevenlabs_api_key (P := platform) (fun _ => Returns tt) "key" idle).

(** Half a second at 16 kHz would be 16000 bytes; 1000 are enough to
    hold the first 30 ms frame of 960 bytes. *)
Definition speech_chunk : @ndarray platform := repeat Byte.x01 1000.
Definition silence_chunk : @ndarray platform := repeat Byte.x00 1000.


(** A configuration whose silence threshold is shorter than a chunk. *)
Definition cfg_short_silence : VoiceConfig := {|
  whisper_model_size := "base";
  sample_rate := 16000;
  chunk_duration := 1 # 2;
  vad_aggressiveness := 2;
  silence_threshold := 1 # 4;
  elevenlabs_voice_id := "21m00Tcm4TlvDq8ikWAM";
  elevenlabs_stability := 3 # 4;
  elevenlabs_clarity := 3 # 4;
  elevenlabs_style := 0 # 1;
  audio_device := None
|}.

(** A listening engine under that configuration, without a classifier. *)
Definition listening_short_silence : @VoiceEngine platform :=
  set_vad None
    (state_of (start_listening (P := platform) None (engine cfg_short_silence))).

(** Texts of lengths 1, 2, ..., n: pairwise distinct hashes here. *)
Fixpoint texts (n : nat) : list string :=
  match n with
  | O => []
  | S n' => texts n' ++ [String.concat "" (repeat "a" n)]
  end.

Definition calls (n : nat) : list TtsCall :=
  map (fun text => {| call_generate := echo_generate;
                      call_text := text;
                      call_voice := None |}) (texts n).

End Sample.

(* ------------------------------------------------------------------ *)
(** ** The other methods of [VoiceEngine] *)
(* ------------------------------------------------------------------ *)

From Stdlib Require DecimalPos DecimalZ.

(** [try: body finally: cleanup], which is what leaving a [with] block
    does with the context manager: the clean-up runs on both ways out,
    and an exception of the body goes on unless the clean-up raises
    one of its own. *)
Definition finally_ {S T A} (body : M S T A) (cleanup : M S T unit) : M S T A :=
  fun s =>
    match body s with
    | (r, s1, t1) =>
        match cleanup s1 with
        | (Returns _, s2, t2) => (r, s2, t1 ++ t2)
        | (Raises e, s2, t2) => (Raises e, s2, t1 ++ t2)
        end
    end.

Section Services.
Context {P : Platform}.

(** [transcribe_file].  [transcribe_path] is what
    [self.whisper_model.transcribe(audio_file_path, ...)] and the walk
    over its segments give for a path. *)
Definition transcribe_file (transcribe_path : string -> outcome (list string))
    (audio_file_path : string) : Eng string :=
  self <- get ;;
  match whisper_model self with
  | None => log Error "Whisper model not available" ;; ret ""
  | Some _ =>
    try_except
      (segments <- lift (transcribe_path audio_file_path) ;;
       let text := join " " segments in
       ret (strip text))
      (fun _ => log Error "File transcription error" ;; ret "")
  end.

(** [get_available_voices].  [voices] is what the call [voices()] and the
    walk over the result give: the [(voice_id, name)] pairs in order. *)
Definition get_available_voices (voices : outcome (list (string * string)))
  : Eng (dict string) :=
  self <- get ;;
  if negb (elevenlabs_configured self) || negb have_elevenlabs then ret []
  else
    try_except
      (voice_list <- lift voices ;;
       ret (fold_left (fun d voice => dict_set (fst voice) (snd voice) d)
              voice_list []))
      (fun _ => log Error "Error fetching voices" ;; ret []).

(** What [play_audio] reaches outside the engine: the temporary file, the
    sound device and [os.unlink]. *)
Record Playback : Type := {
  NamedTemporaryFile : outcome string;
  tmp_write : string -> bytes -> outcome unit;
  tmp_flush : string -> outcome unit;
  tmp_close : string -> outcome unit;
  sd_read : string -> outcome (ndarray * Z);
  sd_play : ndarray -> Z -> outcome unit;
  sd_wait : outcome unit;
  os_unlink : string -> outcome unit
}.

(** What a run of [play_audio] leaves behind. *)
Inductive PlayEffect : Type :=
| TempFileCreated (name : string)
| Played
| TempFileRemoved (name : string)
| PlayLog (lvl : level) (msg : string).

Definition play_audio (dev : Playback) (audio_data : bytes)
  : M VoiceEngine PlayEffect unit :=
  if negb have_audio then emit (PlayLog Error "sounddevice or numpy not available")
  else
    try_except
      (name <- lift (NamedTemporaryFile dev) ;;
       emit (TempFileCreated name) ;;
       finally_
         (lift (tmp_write dev name audio_data) ;;
          lift (tmp_flush dev name) ;;
          sound <- lift (sd_read dev name) ;;
          lift (sd_play dev (fst sound) (snd sound)) ;;
          lift (sd_wait dev) ;;
          emit Played ;;
          lift (os_unlink dev name) ;;
          emit (TempFileRemoved name))
         (lift (tmp_close dev name)))
      (fun _ => emit (PlayLog Error "Audio playback error")).

(** *** More vocabulary *)

(** The verdict the loop gets for a chunk on [self]. *)
Definition verdict (self : VoiceEngine) (chunk : ndarray) : bool :=
  match result_of (_is_speech (pcm16_bytes chunk) self) with
  | Returns b => b
  | Raises _ => true
  end.

Definition labelled (self : VoiceEngine) (chunks : list ndarray)
  : list (bool * ndarray) :=
  map (fun chunk => (verdict self chunk, chunk)) chunks.

(** The files a run of [play_audio] created and the ones it removed. *)
Definition files_created (t : list PlayEffect) : list string :=
  flat_map (fun e => match e with TempFileCreated n => [n] | _ => [] end) t.

Definition files_removed (t : list PlayEffect) : list string :=
  flat_map (fun e => match e with TempFileRemoved n => [n] | _ => [] end) t.

(** Every step of [play_audio] on the file [name] goes through. *)
Definition playback_succeeds (dev : Playback) (name : string) (audio_data : bytes)
  : Prop :=
  tmp_write dev name audio_data = Returns tt
  /\ tmp_flush dev name = Returns tt
  /\ (exists data fs,
        sd_read dev name = Returns (data, fs)
        /\ sd_play dev data fs = Returns tt)
  /\ sd_wait dev = Returns tt
  /\ os_unlink dev name = Returns tt.

End Services.

(** [s.rstrip()]. *)
Definition rstrip (s : string) : string :=
  rev_str (lstrip_reversed (rev_str s)).

(** Whether a string begins with a character that one of three tests
    accepts, on one, two and three bytes. *)
Definition begins_with (sp1 : ascii -> bool) (sp2 : ascii -> ascii -> bool)
    (sp3 : ascii -> ascii -> ascii -> bool) (s : string) : bool :=
  match s with
  | EmptyString => false
  | String c1 r1 =>
      sp1 c1
      || match r1 with
         | EmptyString => false
         | String c2 r2 =>
             sp2 c1 c2
             || match r2 with
                | EmptyString => false
                | String c3 _ => sp3 c1 c2 c3
                end
         end
  end.

Definition begins_with_space (s : string) : bool :=
  begins_with is_space is_space2 is_space3 s.

Definition ends_with_space (s : string) : bool :=
  begins_with is_space (fun c2 c1 => is_space2 c1 c2)
    (fun c3 c2 c1 => is_space3 c1 c2 c3) (rev_str s).

(** A string with no whitespace character at either end. *)
Definition trimmed (s : string) : Prop :=
  begins_with_space s = false /\ ends_with_space s = false.

(** A string without the character [c]. *)
Fixpoint lacks (c : ascii) (s : string) : bool :=
  match s with
  | EmptyString => true
  | String c' s' => negb (Ascii.eqb c c') && lacks c s'
  end.

(** The name the last of the voices with identifier [id] carries. *)
Fixpoint last_name (id : string) (voices : list (string * string)) : option string :=
  match voices with
  | [] => None
  | (id', name) :: rest =>
      match last_name id rest with
      | Some n => Some n
      | None => if String.eqb id id' then Some name else None
      end
  end.

(** More of the sample process. *)
Module Trial.

(** A device on which everything works, and one whose [sd.read] raises. *)
Definition working_device : @Playback Sample.platform := {|
  NamedTemporaryFile := Returns "/tmp/tmpa.wav";
  tmp_write := fun _ _ => Returns tt;
  tmp_flush := fun _ => Returns tt;
  tmp_close := fun _ => Returns tt;
  sd_read := fun _ => Returns (Sample.speech_chunk, 16000);
  sd_play := fun _ _ => Returns tt;
  sd_wait := Returns tt;
  os_unlink := fun _ => Returns tt
|}.

Definition unreadable_device : @Playback Sample.platform := {|
  NamedTemporaryFile := Returns "/tmp/tmpa.wav";
  tmp_write := fun _ _ => Returns tt;
  tmp_flush := fun _ => Returns tt;
  tmp_close := fun _ => Returns tt;
  sd_read := fun _ => Raises (ExternalError "no such function");
  sd_play := fun _ _ => Returns tt;
  sd_wait := Returns tt;
  os_unlink := fun _ => Returns tt
|}.

(** The sample process without the faster-whisper package. *)
Definition platform_no_whisper : Platform := {|
  ndarray := bytes;
  pcm16_bytes := fun chunk => chunk;
  as_float32 := fun audio => audio;
  concatenate := fun blocks => Returns (List.concat blocks);
  hash := fun text => Z.of_nat (String.length text);
  have_audio := true;
  have_whisper := false;
  have_webrtcvad := true;
  have_elevenlabs := true
|}.

(** An idle engine with the three callbacks of the application set. *)
Definition idle_with_callbacks : @VoiceEngine Sample.platform := {|
  config := VoiceConfig_default;
  whisper_model := Some Sample.one_segment_whisper;
  vad := Some Sample.shape_checking_vad;
  elevenlabs_configured := false;
  is_listening := false;
  recording_thread := None;
  on_speech_detected := Some (fun _ => Returns tt);
  on_listening_start := Some (Returns tt);
  on_listening_stop := Some (Returns tt);
  tts_cache := []
|}.

(** An idle engine whose start and stop callbacks raise. *)
Definition idle_raising_callbacks : @VoiceEngine Sample.platform := {|
  config := VoiceConfig_default;
  whisper_model := Some Sample.one_segment_whisper;
  vad := Some Sample.shape_checking_vad;
  elevenlabs_configured := false;
  is_listening := false;
  recording_thread := None;
  on_speech_detected := None;
  on_listening_start := Some (Raises (ExternalError "callback failure"));
  on_listening_stop := Some (Raises (ExternalError "callback failure"));
  tts_cache := []
|}.

(** A configuration with a chunk duration of zero. *)
Definition cfg_zero_chunk : VoiceConfig := {|
  whisper_model_size := "base";
  sample_rate := 16000;
  chunk_duration := 0 # 1;
  vad_aggressiveness := 2;
  silence_threshold := 2 # 1;
  elevenlabs_voice_id := "21m00Tcm4TlvDq8ikWAM";
  elevenlabs_stability := 3 # 4;
  elevenlabs_clarity := 3 # 4;
  elevenlabs_style := 0 # 1;
  audio_device := None
|}.

Definition listening_zero_chunk : @VoiceEngine Sample.platform :=
  state_of (start_listening (P := Sample.platform) None
              (Sample.engine cfg_zero_chunk)).

(** A listening engine with a speech callback. *)
Definition listening_with_callback : @VoiceEngine Sample.platform :=
  set_on_speech_detected (Some (fun _ => Returns tt)) Sample.listening.

(** The configured sample engine after the 50 calls that fill its cache. *)
Definition full : @VoiceEngine Sample.platform :=
  run_calls (P := Sample.platform) (Sample.calls 50) Sample.configured.

Definition call (text : string) : TtsCall :=
  {| call_generate := Sample.echo_generate; call_text := text; call_voice := None |}.

(** A recognition model that raises on a short audio and hears one
    segment on an audio of 5500 bytes or more. *)
Definition flaky_whisper : @Whisper Sample.platform :=
  fun audio =>
    if len audio <? 5500 then Raises (ExternalError "transient failure")
    else Returns [" hello "].

Definition listening_flaky : @VoiceEngine Sample.platform :=
  set_whisper_model (Some flaky_whisper) listening_with_callback.

(** Two utterances at a threshold of 4 chunks, of 5000 and 6000 bytes. *)
Definition short_utterance : list (@ndarray Sample.platform) :=
  repeat Sample.speech_chunk 1 ++ repeat Sample.silence_chunk 4.

Definition long_utterance : list (@ndarray Sample.platform) :=
  repeat Sample.speech_chunk 2 ++ repeat Sample.silence_chunk 4.

(** U+00A0 NO-BREAK SPACE and U+3000 IDEOGRAPHIC SPACE in UTF-8. *)
Definition no_break_space : string := String "194" (String "160" "").
Definition ideographic_space : string :=
  String "227" (String "128" (String "128" "")).

(** The text [" hello"] between a no-break space and an ideographic
    space followed by a no-break space; a model that hears it, and one
    that hears a no-break space alone. *)
Definition edged_text : string :=
  String.append no_break_space
    (String.append " hello" (String.append ideographic_space no_break_space)).

Definition edged_whisper : @Whisper Sample.platform :=
  fun _ => Returns [edged_text].

Definition blank_whisper : @Whisper Sample.platform :=
  fun _ => Returns [no_break_space].

(** Chunks of a tenth of a second, the literal [0.1], and of 30 ms, the
    literal [0.03]; and the first again, given by the exact value of the
    float that [0.1] is read as. *)
Definition cfg_tenth : VoiceConfig := {|
  whisper_model_size := "base";
  sample_rate := 16000;
  chunk_duration := 1 # 10;
  vad_aggressiveness := 2;
  silence_threshold := 2 # 1;
  elevenlabs_voice_id := "21m00Tcm4TlvDq8ikWAM";
  elevenlabs_stability := 3 # 4;
  elevenlabs_clarity := 3 # 4;
  elevenlabs_style := 0 # 1;
  audio_device := None
|}.

Definition cfg_30ms : VoiceConfig := {|
  whisper_model_size := "base";
  sample_rate := 16000;
  chunk_duration := 3 # 100;
  vad_aggressiveness := 2;
  silence_threshold := 2 # 1;
  elevenlabs_voice_id := "21m00Tcm4TlvDq8ikWAM";
  elevenlabs_stability := 3 # 4;
  elevenlabs_clarity := 3 # 4;
  elevenlabs_style := 0 # 1;
  audio_device := None
|}.

Definition cfg_tenth_exact : VoiceConfig := {|
  whisper_model_size := "base";
  sample_rate := 16000;
  chunk_duration := 3602879701896397 # 36028797018963968;
  vad_aggressiveness := 2;
  silence_threshold := 2 # 1;
  elevenlabs_voice_id := "21m00Tcm4TlvDq8ikWAM";
  elevenlabs_stability := 3 # 4;
  elevenlabs_clarity := 3 # 4;
  elevenlabs_style := 0 # 1;
  audio_device := None
|}.

(** A configuration whose chunk duration is the smallest positive float,
    [5e-324]. *)
Definition cfg_tiny_chunk : VoiceConfig := {|
  whisper_model_size := "base";
  sample_rate := 16000;
  chunk_duration := Qmake 1 (2 ^ 1074);
  vad_aggressiveness := 2;
  silence_threshold := 2 # 1;
  elevenlabs_voice_id := "21m00Tcm4TlvDq8ikWAM";
  elevenlabs_stability := 3 # 4;
  elevenlabs_clarity := 3 # 4;
  elevenlabs_style := 0 # 1;
  audio_device := None
|}.

Definition listening_tiny_chunk : @VoiceEngine Sample.platform :=
  state_of (start_listening (P := Sample.platform) None
              (Sample.engine cfg_tiny_chunk)).

End Trial.


(* ------------------------------------------------------------------ *)
(** ** Properties *)
(* ------------------------------------------------------------------ *)

(** Unfolds the monad down to pairs. *)
Ltac run_py :=
  unfold log, invoke, try_except, bind, ret, lift, get, modify, emit,
    result_of, state_of, trace_of in *; cbn [fst snd app] in *.

Section Control.
Context {P : Platform}.

(** C8.  [start_listening] on an engine that is listening only logs a
    warning, and [stop_listening] on an engine that is not listening does
    nothing at all: the engine object is unchanged (same listening flag,
    same thread), and the trace has no [ThreadStart] and no callback. *)
Theorem start_stop_noop (self : VoiceEngine)
    (callback : option (string -> outcome unit)) :
  (is_listening self = true ->
   start_listening callback self
   = (Returns tt, self, [Log Warning "Already listening"]))
  /\ (is_listening self = false ->
      stop_listening self = (Returns tt, self, [])).
Proof.
  split; intros H.
  - unfold start_listening. run_py. rewrite H. reflexivity.
  - unfold stop_listening. run_py. rewrite H. reflexivity.
Qed.

(** C6, as the code has it.  An empty buffer handed to
    [_process_audio_buffer] is dropped in silence: the call returns
    normally, the engine is unchanged, nothing is transcribed, logged or
    delivered. *)
Theorem empty_buffer_ignored (self : VoiceEngine) :
  _process_audio_buffer [] self = (Returns tt, self, []).
Proof. reflexivity. Qed.

End Control.

(** C8 at work on the sample engines. *)
Lemma start_stop_noop_witness :
  start_listening (P := Sample.platform) None Sample.listening
  = (Returns tt, Sample.listening, [Log Warning "Already listening"])
  /\ stop_listening (P := Sample.platform) Sample.idle
     = (Returns tt, Sample.idle, []).
Proof.
  split.
  - apply (proj1 (start_stop_noop Sample.listening None)). reflexivity.
  - apply (proj2 (start_stop_noop Sample.idle None)). reflexivity.
Defined.

(** C6 as the specification words it fails: the empty buffer raises
    nothing on the sample engine. *)
Lemma empty_buffer_not_rejected :
  result_of (_process_audio_buffer (P := Sample.platform) [] Sample.listening)
  = Returns tt
  /\ trace_of (_process_audio_buffer (P := Sample.platform) [] Sample.listening)
     = []
  /\ forall e,
       result_of (_process_audio_buffer (P := Sample.platform) [] Sample.listening)
       <> Raises e.
Proof.
  repeat split; try reflexivity. intros e H. discriminate H.
Qed.

Section Classification.
Context {P : Platform}.

(** [_is_speech] case by case: it never raises and never touches the
    engine. *)
Lemma is_speech_eq (self : VoiceEngine) (audio_bytes : bytes) :
  _is_speech audio_bytes self
  = match vad self with
    | None => (Returns true, self, [])
    | Some v =>
        let n := int_muldiv (sample_rate (config self)) 30 1000 * 2 in
        if len audio_bytes <? n then (Returns false, self, [])
        else match v (slice_to n audio_bytes) (sample_rate (config self)) with
             | Returns b => (Returns b, self, [])
             | Raises _ => (Returns true, self, [Log Error "VAD error"])
             end
    end.
Proof.
  unfold _is_speech. run_py.
  destruct (vad self) as [v|]; [|reflexivity].
  cbv zeta.
  destruct (len audio_bytes <? _); [reflexivity|].
  destruct (v _ _); reflexivity.
Qed.

Lemma is_speech_total (self : VoiceEngine) (audio_bytes : bytes) :
  exists b t, _is_speech audio_bytes self = (Returns b, self, t)
              /\ utterances t = [] /\ speech_events t = [].
Proof.
  rewrite is_speech_eq.
  destruct (vad self) as [v|]; [|now exists true, []].
  cbv zeta.
  destruct (len audio_bytes <? _); [now exists false, []|].
  destruct (v _ _) as [b|e]; [now exists b, [] | now eexists true, _].
Qed.



Lemma slice_to_nonneg {A : Type} (n : Z) (xs : list A) :
  0 <= n -> slice_to n xs = firstn (Z.to_nat n) xs.
Proof.
  intros H. unfold slice_to.
  destruct (Z.ltb_spec n 0); [lia | reflexivity].
Qed.



End Classification.




Section Traces.
Context {P : Platform}.

Lemma utterances_app (t1 t2 : list Effect) :
  utterances (t1 ++ t2) = utterances t1 ++ utterances t2.
Proof. unfold utterances. apply flat_map_app. Qed.

Lemma speech_events_app (t1 t2 : list Effect) :
  speech_events (t1 ++ t2) = speech_events t1 ++ speech_events t2.
Proof. unfold speech_events. apply flat_map_app. Qed.

Lemma utterances_cons (e : Effect) (t : list Effect) :
  utterances (e :: t)
  = match e with Utterance frames => [frames] | _ => [] end ++ utterances t.
Proof. reflexivity. Qed.

Lemma speech_events_cons (e : Effect) (t : list Effect) :
  speech_events (e :: t)
  = match e with Callback (SpeechDetected s) => [s] | _ => [] end
    ++ speech_events t.
Proof. reflexivity. Qed.

Lemma utterances_nil : utterances [] = [].
Proof. reflexivity. Qed.

Lemma speech_events_nil : speech_events [] = [].
Proof. reflexivity. Qed.

End Traces.

(** Pushes [utterances] and [speech_events] through a trace. *)
Ltac split_trace :=
  repeat (rewrite utterances_app || rewrite utterances_cons
          || rewrite speech_events_app || rewrite speech_events_cons
          || rewrite utterances_nil || rewrite speech_events_nil);
  cbn [app].

Section Loop.
Context {P : Platform}.

Lemma truthy_list_snoc {A : Type} (xs : list A) (x : A) :
  truthy_list (xs ++ [x]) = true.
Proof. destruct xs; reflexivity. Qed.

(** [_transcribe_audio] always returns a string and leaves the engine
    alone; it hands nothing to transcription and calls no callback. *)
Lemma transcribe_total (self : VoiceEngine) (audio : ndarray) :
  exists text t,
    _transcribe_audio audio self = (Returns text, self, t)
    /\ utterances t = [] /\ speech_events t = []
    /\ (recognition_fails self -> text = "").
Proof.
  unfold _transcribe_audio, recognition_fails. run_py.
  destruct (whisper_model self) as [model|].
  - destruct (model (as_float32 audio)) as [segments|e] eqn:Hm.
    + eexists _, _. repeat split. intros Hfail.
      destruct (Hfail (as_float32 audio)) as [e He]. congruence.
    + eexists _, _. repeat split.
  - eexists _, _. repeat split.
Qed.

(** [_process_audio_buffer] on a buffer that is not empty: it returns
    normally whatever the external calls do, leaves the engine alone
    and hands over exactly this buffer. *)
Lemma process_buffer_total (self : VoiceEngine) (buffer : list ndarray) :
  buffer <> [] ->
  exists t,
    _process_audio_buffer buffer self = (Returns tt, self, t)
    /\ utterances t = [buffer]
    /\ (recognition_fails self -> speech_events t = []).
Proof.
  intros Hne. destruct buffer as [|c rest]; [congruence|].
  unfold _process_audio_buffer. cbn [truthy_list negb]. run_py.
  destruct (concatenate (c :: rest)) as [audio|e].
  - destruct (transcribe_total self audio) as (text & t & Ht & Hu & Hs & Hfail).
    rewrite Ht.
    destruct (truthy_str text && truthy_str (strip text)) eqn:Htext.
    + destruct (on_speech_detected self) as [cb|].
      * destruct (cb (strip text)) as [[]|e];
          (eexists; split; [reflexivity|]; split;
           [ split_trace; rewrite Hu; reflexivity
           | intros Hf; rewrite (Hfail Hf) in Htext; discriminate Htext ]).
      * eexists; split; [reflexivity|]; split.
        -- split_trace. rewrite Hu. reflexivity.
        -- intros _. split_trace. rewrite Hs. reflexivity.
    + eexists; split; [reflexivity|]; split.
      * split_trace. rewrite Hu. reflexivity.
      * intros _. split_trace. rewrite Hs. reflexivity.
  - eexists; split; [reflexivity|]; split; reflexivity.
Qed.

(** One iteration on a chunk: the locals move as [accumulate] says for
    the verdict [_is_speech] gives, the iteration never breaks out of
    the loop and never touches the engine. *)
Lemma loop_body_got (self : VoiceEngine) (max : Z) (chunk : ndarray)
    (loc : Locals) :
  exists b t,
    classified self chunk b
    /\ loop_body max (Got chunk) loc self
       = (Returns (Continue (snd (accumulate max b chunk loc))), self, t)
    /\ utterances t
       = match fst (accumulate max b chunk loc) with
         | Some u => [u]
         | None => []
         end
    /\ (recognition_fails self -> speech_events t = []).
Proof.
  destruct (is_speech_total self (pcm16_bytes chunk)) as (b & t0 & Hb & Hu0 & Hs0).
  exists b. unfold classified, loop_body, accumulate.
  run_py. rewrite Hb. cbn [fst snd].
  set (buffer1 := if b then audio_buffer loc ++ [chunk]
                  else if truthy_list (audio_buffer loc)
                       then audio_buffer loc ++ [chunk] else audio_buffer loc).
  set (silence1 := if b then 0 else silence_chunks loc + 1).
  assert (Hloc : (if b
                  then {| audio_buffer := audio_buffer loc ++ [chunk];
                          silence_chunks := 0 |}
                  else {| audio_buffer :=
                            if truthy_list (audio_buffer loc)
                            then audio_buffer loc ++ [chunk]
                            else audio_buffer loc;
                          silence_chunks := silence_chunks loc + 1 |})
                 = {| audio_buffer := buffer1; silence_chunks := silence1 |})
    by (destruct b; reflexivity).
  rewrite Hloc. cbn [audio_buffer silence_chunks].
  destruct (truthy_list buffer1 && (max <=? silence1)) eqn:Hemit.
  - assert (Hne : buffer1 <> []).
    { intros Hnil. rewrite Hnil in Hemit. discriminate Hemit. }
    destruct (process_buffer_total self buffer1 Hne) as (t & Ht & Hu & Hs).
    rewrite Ht. eexists. split; [reflexivity|]. split; [reflexivity|].
    cbn [fst snd]. split.
    + rewrite !utterances_app, Hu0, Hu. reflexivity.
    + intros Hf. rewrite !speech_events_app, Hs0, (Hs Hf). reflexivity.
  - eexists. split; [reflexivity|]. split; [reflexivity|].
    cbn [fst snd]. split.
    + rewrite utterances_app, Hu0. reflexivity.
    + intros _. rewrite speech_events_app, Hs0. reflexivity.
Qed.

Lemma classified_functional (self : VoiceEngine) (chunk : ndarray) (b b' : bool) :
  classified self chunk b -> classified self chunk b' -> b = b'.
Proof. unfold classified. intros H H'. congruence. Qed.

(** The loop over a stream of chunks whose verdicts are known hands
    over the buffers [segment] computes and ends on its locals. *)
Lemma while_listening_segment (self : VoiceEngine) (max : Z)
    (frames : list (bool * ndarray)) :
  is_listening self = true ->
  Forall (fun f => classified self (snd f) (fst f)) frames ->
  forall loc,
    exists t,
      while_listening max (map (fun f => Got (snd f)) frames) loc self
      = (Returns (snd (segment max frames loc)), self, t)
      /\ utterances t = fst (segment max frames loc).
Proof.
  intros Hon Hall. induction Hall as [|[b chunk] frames Hb _ IH]; intros loc.
  - exists []. split; reflexivity.
  - cbn [map snd fst while_listening segment] in *. run_py. rewrite Hon.
    destruct (loop_body_got self max chunk loc) as (b' & t1 & Hb' & Hstep & Hu1 & _).
    rewrite (classified_functional _ _ _ _ Hb' Hb) in *.
    rewrite Hstep.
    destruct (accumulate max b chunk loc) as [[u|] loc'] eqn:Hacc;
      cbn [fst snd] in *.
    + destruct (IH loc') as (t2 & Hrest & Hu2). rewrite Hrest.
      destruct (segment max frames loc') as [us final] eqn:Hseg.
      cbn [fst snd] in *.
      eexists. split; [reflexivity|].
      rewrite utterances_app, Hu1, Hu2. reflexivity.
    + destruct (IH loc') as (t2 & Hrest & Hu2). rewrite Hrest.
      eexists. split; [reflexivity|].
      rewrite utterances_app, Hu1, Hu2. reflexivity.
Qed.

End Loop.

Section Segmentation.
Context {P : Platform}.

(** C1.  With [chunk_duration = 0.5] and [silence_threshold = 2.0] the
    loop waits for 4 silent chunks.  On a listening engine, for a chunk
    [s] classified as speech and a chunk [n] classified as non-speech,
    the stream [s]*3 + [n]*4 + [s]*2 + [n]*4 hands over exactly two
    buffers, of 7 chunks (the 3 speech chunks and the 4 silent ones
    after them) and of 6 chunks; the stream [s] + [n]*4 hands over
    exactly one buffer of 5 chunks; and both runs end with an empty
    buffer and a silence count of zero. *)
Theorem segmentation_scenarios (self : VoiceEngine) (s n : ndarray) :
  is_listening self = true ->
  chunk_duration (config self) = 1 # 2 ->
  silence_threshold (config self) = 2 # 1 ->
  classified self s true ->
  classified self n false ->
  max_silence_chunks_of (config self) = Returns 4
  /\ (exists t,
        while_listening 4
          (map Got (repeat s 3 ++ repeat n 4 ++ repeat s 2 ++ repeat n 4))
          Locals_initial self
        = (Returns Locals_initial, self, t)
        /\ utterances t = [repeat s 3 ++ repeat n 4; repeat s 2 ++ repeat n 4]
        /\ map (@List.length ndarray) (utterances t) = [7; 6]%nat)
  /\ (exists t,
        while_listening 4 (map Got (repeat s 1 ++ repeat n 4))
          Locals_initial self
        = (Returns Locals_initial, self, t)
        /\ utterances t = [repeat s 1 ++ repeat n 4]
        /\ map (@List.length ndarray) (utterances t) = [5]%nat).
Proof.
  intros Hon Hchunk Hsilence Hs Hn.
  split; [|split].
  - unfold max_silence_chunks_of. rewrite Hchunk, Hsilence. reflexivity.
  - destruct (while_listening_segment self 4
                (repeat (true, s) 3 ++ repeat (false, n) 4
                 ++ repeat (true, s) 2 ++ repeat (false, n) 4) Hon)
      with (loc := Locals_initial) as (t & Hrun & Hu).
    { cbn [repeat app]. repeat constructor; assumption. }
    exists t. split; [exact Hrun|].
    rewrite Hu. split; reflexivity.
  - destruct (while_listening_segment self 4
                (repeat (true, s) 1 ++ repeat (false, n) 4) Hon)
      with (loc := Locals_initial) as (t & Hrun & Hu).
    { cbn [repeat app]. repeat constructor; assumption. }
    exists t. split; [exact Hrun|].
    rewrite Hu. split; reflexivity.
Qed.

Lemma while_listening_total (self : VoiceEngine) (max : Z)
    (items : list QueueGet) :
  forall loc,
    exists loc' t,
      while_listening max items loc self = (Returns loc', self, t)
      /\ (recognition_fails self -> speech_events t = []).
Proof.
  induction items as [|item rest IH]; intros loc.
  - exists loc, []. split; reflexivity.
  - cbn [while_listening]. run_py.
    destruct (is_listening self); [|exists loc, []; split; reflexivity].
    destruct item as [chunk|].
    + destruct (loop_body_got self max chunk loc) as (b & t1 & _ & Hstep & _ & Hs1).
      rewrite Hstep.
      destruct (IH (snd (accumulate max b chunk loc))) as (loc' & t2 & Hrest & Hs2).
      rewrite Hrest. exists loc'. eexists. split; [reflexivity|].
      intros Hf. split_trace. rewrite (Hs1 Hf), (Hs2 Hf). reflexivity.
    + cbn [loop_body]. run_py.
      destruct (IH loc) as (loc' & t2 & Hrest & Hs2).
      rewrite Hrest. exists loc'. eexists. split; [reflexivity|].
      exact Hs2.
Qed.

End Segmentation.

Section FailOpen.
Context {P : Platform}.

(** Without a classifier and with a threshold of at least one chunk,
    the loop only ever appends: no buffer is handed over and nothing is
    traced. *)
Lemma while_listening_no_vad (self : VoiceEngine) (m : Z)
    (items : list QueueGet) :
  vad self = None ->
  1 <= m ->
  forall buffer,
    while_listening m items
      {| audio_buffer := buffer; silence_chunks := 0 |} self
    = (Returns {| audio_buffer :=
                    buffer ++ (if is_listening self then chunks_of items else []);
                  silence_chunks := 0 |},
       self, []).
Proof.
  intros Hvad Hm. induction items as [|item rest IH]; intros buffer.
  - cbn. destruct (is_listening self); rewrite app_nil_r; reflexivity.
  - cbn [while_listening]. run_py.
    destruct (is_listening self) eqn:Hon;
      [|rewrite app_nil_r; reflexivity].
    destruct item as [chunk|].
    + unfold loop_body. run_py. rewrite is_speech_eq, Hvad.
      cbn [audio_buffer silence_chunks].
      rewrite truthy_list_snoc.
      destruct (Z.leb_spec m 0); [lia|]. cbn [andb app].
      rewrite IH. cbn [chunks_of flat_map app].
      rewrite <- app_assoc. reflexivity.
    + cbn [loop_body]. run_py. rewrite IH. reflexivity.
Qed.

(** C5, as the code has it.  Without a classifier [_is_speech] answers
    speech for every chunk.  When, in addition, the silence threshold
    amounts to at least one chunk ([max_silence_chunks >= 1], as with
    the defaults), a stream of any length is never split: the recording
    loop hands over no buffer at all, and on a listening engine all the
    chunks of the stream sit, in order, in the one open buffer. *)
Theorem no_vad_never_splits (self : VoiceEngine) (m : Z) :
  vad self = None ->
  max_silence_chunks_of (config self) = Returns m ->
  1 <= m ->
  (forall audio_bytes, _is_speech audio_bytes self = (Returns true, self, []))
  /\ (forall InputStream items,
        utterances (trace_of (_recording_loop InputStream items self)) = [])
  /\ (forall items,
        while_listening m items Locals_initial self
        = (Returns {| audio_buffer :=
                        if is_listening self then chunks_of items else [];
                      silence_chunks := 0 |},
           self, [])).
Proof.
  intros Hvad Hmax Hm. split; [|split].
  - intros audio_bytes. rewrite is_speech_eq, Hvad. reflexivity.
  - intros InputStream items. unfold _recording_loop. run_py.
    destruct (chunk_size_of (config self)) as [n|e]; [|reflexivity].
    rewrite Hmax. cbn [app].
    destruct (InputStream n) as [[]|e]; [|reflexivity].
    unfold Locals_initial. rewrite (while_listening_no_vad self m items Hvad Hm).
    reflexivity.
  - intros items. unfold Locals_initial.
    rewrite (while_listening_no_vad self m items Hvad Hm). reflexivity.
Qed.

End FailOpen.

(** C1 at work on the sample engine, with a chunk of ones for speech and
    a chunk of zeros for silence. *)
Lemma segmentation_scenarios_witness :
  exists t,
    while_listening (P := Sample.platform) 4
      (map Got (repeat Sample.speech_chunk 1 ++ repeat Sample.silence_chunk 4))
      Locals_initial Sample.listening
    = (Returns Locals_initial, Sample.listening, t)
    /\ utterances t = [repeat Sample.speech_chunk 1 ++ repeat Sample.silence_chunk 4]
    /\ map (@List.length _) (utterances t) = [5]%nat.
Proof.
  apply (segmentation_scenarios (P := Sample.platform) Sample.listening
           Sample.speech_chunk Sample.silence_chunk);
    vm_compute; reflexivity.
Defined.

(** C5 at work on the sample engine without a classifier, under the
    default threshold of 4 chunks. *)
Lemma no_vad_never_splits_witness :
  utterances
    (trace_of (_recording_loop (P := Sample.platform) (fun _ => Returns tt)
                 (repeat (Got Sample.silence_chunk) 9) Sample.listening_no_vad))
  = [].
Proof.
  apply (no_vad_never_splits (P := Sample.platform) Sample.listening_no_vad 4);
    [reflexivity | reflexivity | lia].
Defined.

(** C5 as the specification words it fails.  With a silence threshold of
    0.25 s and chunks of 0.5 s the loop waits for [int(0.5) = 0] silent
    chunks, and without a classifier every chunk of the stream is handed
    over on its own. *)
Lemma no_vad_stream_split :
  vad Sample.listening_short_silence = None
  /\ max_silence_chunks_of (config Sample.listening_short_silence) = Returns 0
  /\ utterances
       (trace_of (_recording_loop (P := Sample.platform) (fun _ => Returns tt)
                    [Got Sample.speech_chunk; Got Sample.silence_chunk;
                     Got Sample.speech_chunk]
                    Sample.listening_short_silence))
     = [[Sample.speech_chunk]; [Sample.silence_chunk]; [Sample.speech_chunk]].
Proof.
  repeat split; vm_compute; reflexivity.
Qed.

Section Dictionaries.
Context {V : Type}.
Implicit Types (d : dict V) (k : string) (v : V).

Lemma distinct_NoDup (xs : list string) : distinct xs = true -> NoDup xs.
Proof.
  induction xs as [|x xs IH]; cbn [distinct]; intros H.
  - constructor.
  - apply andb_prop in H. destruct H as [Hx Hxs]. constructor.
    + intros Hin. apply negb_true_iff in Hx.
      assert (existsb (String.eqb x) xs = true); [|congruence].
      apply existsb_exists. exists x. split; [exact Hin | apply String.eqb_refl].
    + exact (IH Hxs).
Qed.

Lemma NoDup_app_disjoint {A : Type} (l1 l2 : list A) (a : A) :
  NoDup (l1 ++ l2) -> In a l1 -> In a l2 -> False.
Proof.
  induction l1 as [|x l1 IH]; cbn [app In]; intros Hnd H1 H2; [exact H1|].
  inversion Hnd as [|? ? Hx Hrest]; subst.
  destruct H1 as [->|H1].
  - apply Hx, in_or_app. right. exact H2.
  - exact (IH Hrest H1 H2).
Qed.

Lemma dict_mem_keys d k : dict_mem k d = true <-> In k (dict_keys d).
Proof.
  induction d as [|[k' v'] d IH]; cbn [dict_mem dict_keys map fst In].
  - split; [discriminate | tauto].
  - destruct (String.eqb_spec k k') as [->|Hne].
    + split; auto.
    + rewrite IH. unfold dict_keys. split; [auto | intros [?|?]; congruence].
Qed.

Lemma dict_mem_fresh d k : ~ In k (dict_keys d) -> dict_mem k d = false.
Proof.
  intros H. destruct (dict_mem k d) eqn:E; [|reflexivity].
  apply dict_mem_keys in E. contradiction.
Qed.

Lemma dict_mem_get d k : dict_mem k d = true -> exists v, dict_get k d = Some v.
Proof.
  induction d as [|[k' v'] d IH]; cbn [dict_mem dict_get]; [discriminate|].
  destruct (String.eqb k k'); [eauto | exact IH].
Qed.

Lemma dict_get_mem d k v : dict_get k d = Some v -> dict_mem k d = true.
Proof.
  induction d as [|[k' v'] d IH]; cbn [dict_mem dict_get]; [discriminate|].
  destruct (String.eqb k k'); [reflexivity | exact IH].
Qed.

Lemma dict_set_fresh d k v : dict_mem k d = false -> dict_set k v d = d ++ [(k, v)].
Proof.
  induction d as [|[k' v'] d IH]; cbn [dict_mem dict_set app]; [reflexivity|].
  destruct (String.eqb k k'); [discriminate|].
  intros H. rewrite (IH H). reflexivity.
Qed.

Lemma dict_get_snoc_fresh d k v :
  dict_mem k d = false -> dict_get k (d ++ [(k, v)]) = Some v.
Proof.
  induction d as [|[k' v'] d IH]; cbn [dict_mem dict_get app].
  - rewrite String.eqb_refl. reflexivity.
  - destruct (String.eqb k k'); [discriminate | exact IH].
Qed.

Lemma dict_mem_skipn d k (n : nat) :
  dict_mem k d = false -> dict_mem k (skipn n d) = false.
Proof.
  revert d. induction n as [|n IH]; intros d; [auto|].
  destruct d as [|[k' v'] d]; cbn [skipn dict_mem]; [auto|].
  destruct (String.eqb k k'); [discriminate | apply IH].
Qed.

Lemma len_snoc {A : Type} (xs : list A) (x : A) : len (xs ++ [x]) = len xs + 1.
Proof. unfold len. rewrite length_app. cbn [List.length]. lia. Qed.

(** The cache after a successful miss: the new entry goes to the end
    and, if that makes more than 50 entries, the first 10 go. *)
Lemma dict_get_after_insert d k v :
  dict_mem k d = false ->
  dict_get k (if 50 <? len (d ++ [(k, v)]) then skipn 10 (d ++ [(k, v)])
              else d ++ [(k, v)])
  = Some v.
Proof.
  intros Hfresh. destruct (Z.ltb_spec 50 (len (d ++ [(k, v)]))) as [Hbig|_].
  - rewrite len_snoc in Hbig. unfold len in Hbig.
    rewrite skipn_app.
    replace (10 - List.length d)%nat with 0%nat by lia.
    rewrite skipn_O. apply dict_get_snoc_fresh, dict_mem_skipn, Hfresh.
  - apply dict_get_snoc_fresh, Hfresh.
Qed.

Lemma len_after_insert d k v :
  len d <= 50 ->
  len (if 50 <? len (d ++ [(k, v)]) then skipn 10 (d ++ [(k, v)])
       else d ++ [(k, v)]) <= 50.
Proof.
  intros Hd. destruct (Z.ltb_spec 50 (len (d ++ [(k, v)]))) as [Hbig|Hsmall].
  - unfold len in *. rewrite length_skipn, length_app in *.
    cbn [List.length] in *. lia.
  - exact Hsmall.
Qed.

End Dictionaries.

Section Cache.
Context {P : Platform}.

Lemma set_tts_cache_same (self : VoiceEngine) :
  set_tts_cache (tts_cache self) self = self.
Proof. destruct self; reflexivity. Qed.

(** The eviction loop: deleting the first [n] keys in order always
    finds each key at the front, so it never raises and leaves the
    entries after the first [n]. *)
Lemma evict_oldest (n : nat) :
  forall self : VoiceEngine,
    for_each (firstn n (dict_keys (tts_cache self))) cache_delitem self
    = (Returns tt, set_tts_cache (skipn n (tts_cache self)) self, []).
Proof.
  induction n as [|n IH]; intros self.
  - cbn. rewrite set_tts_cache_same. reflexivity.
  - destruct (tts_cache self) as [|[k v] d] eqn:Hd.
    + cbn. rewrite <- Hd, set_tts_cache_same. reflexivity.
    + cbn [dict_keys map fst firstn for_each skipn].
      unfold cache_delitem at 1. run_py. rewrite Hd.
      cbn [dict_del]. rewrite String.eqb_refl.
      fold (dict_keys d).
      specialize (IH (set_tts_cache d self)). cbn [tts_cache set_tts_cache] in IH.
      rewrite IH. reflexivity.
Qed.

(** The four ways through [text_to_speech]. *)

Lemma tts_not_available (self : VoiceEngine) generate text voice_id :
  negb (elevenlabs_configured self) || negb have_elevenlabs = true ->
  text_to_speech generate text voice_id self
  = (Returns None, self, [Log Error "Eleven Labs not configured or available"]).
Proof. intros H. unfold text_to_speech. run_py. rewrite H. reflexivity. Qed.

Lemma tts_hit (self : VoiceEngine) generate text voice_id audio :
  elevenlabs_configured self = true ->
  have_elevenlabs = true ->
  dict_get (cache_key (str_or voice_id (elevenlabs_voice_id (config self))) text)
    (tts_cache self) = Some audio ->
  text_to_speech generate text voice_id self = (Returns (Some audio), self, []).
Proof.
  intros Hconf Hhave Hget. unfold text_to_speech, cache_getitem. run_py.
  rewrite Hconf, Hhave. cbn [negb orb].
  rewrite (dict_get_mem _ _ _ Hget), Hget. reflexivity.
Qed.

Lemma tts_miss_failure (self : VoiceEngine) generate text voice_id e :
  elevenlabs_configured self = true ->
  have_elevenlabs = true ->
  dict_mem (cache_key (str_or voice_id (elevenlabs_voice_id (config self))) text)
    (tts_cache self) = false ->
  generate text (str_or voice_id (elevenlabs_voice_id (config self)))
    (elevenlabs_stability (config self)) (elevenlabs_clarity (config self))
    (elevenlabs_style (config self)) = Raises e ->
  text_to_speech generate text voice_id self
  = (Returns None, self,
     [Synthesize text (str_or voice_id (elevenlabs_voice_id (config self)));
      Log Error "TTS error"]).
Proof.
  intros Hconf Hhave Hmiss Hgen. unfold text_to_speech. run_py.
  rewrite Hconf, Hhave. cbn [negb orb]. rewrite Hmiss, Hgen. reflexivity.
Qed.

Lemma tts_miss_success (self : VoiceEngine) generate text voice_id audio :
  elevenlabs_configured self = true ->
  have_elevenlabs = true ->
  dict_mem (cache_key (str_or voice_id (elevenlabs_voice_id (config self))) text)
    (tts_cache self) = false ->
  generate text (str_or voice_id (elevenlabs_voice_id (config self)))
    (elevenlabs_stability (config self)) (elevenlabs_clarity (config self))
    (elevenlabs_style (config self)) = Returns audio ->
  text_to_speech generate text voice_id self
  = (Returns (Some audio),
     set_tts_cache
       (let key := cache_key (str_or voice_id (elevenlabs_voice_id (config self)))
                     text in
        if 50 <? len (tts_cache self ++ [(key, audio)])
        then skipn 10 (tts_cache self ++ [(key, audio)])
        else tts_cache self ++ [(key, audio)])
       self,
     [Synthesize text (str_or voice_id (elevenlabs_voice_id (config self)))]).
Proof.
  intros Hconf Hhave Hmiss Hgen. unfold text_to_speech. run_py.
  rewrite Hconf, Hhave. cbn [negb orb]. rewrite Hmiss, Hgen.
  cbn [tts_cache set_tts_cache]. rewrite (dict_set_fresh _ _ _ Hmiss).
  cbv zeta.
  destruct (50 <? len _).
  - rewrite slice_to_nonneg by lia. change (Z.to_nat 10) with 10%nat.
    match goal with
    | |- context [for_each _ cache_delitem ?s] =>
        pose proof (evict_oldest 10 s) as Hev
    end.
    cbn [tts_cache set_tts_cache] in Hev. rewrite Hev. reflexivity.
  - reflexivity.
Qed.

End Cache.

Section CacheProperties.
Context {P : Platform}.

(** C3.  If a call of [text_to_speech] returns audio bytes, the same
    call made next on the engine it leaves behind returns the same
    bytes whatever the synthesis engine would now do, leaves the engine
    as it is and has an empty trace: the synthesis engine is not
    called. *)
Theorem cache_round_trip (self self' : VoiceEngine) (generate : Generate)
    (text : string) (voice_id : option string) (audio : bytes)
    (t : list Effect) :
  text_to_speech generate text voice_id self = (Returns (Some audio), self', t) ->
  forall generate' : Generate,
    text_to_speech generate' text voice_id self' = (Returns (Some audio), self', []).
Proof.
  intros Hfirst generate'.
  destruct (negb (elevenlabs_configured self) || negb have_elevenlabs) eqn:Hav.
  { rewrite (tts_not_available self generate text voice_id Hav) in Hfirst.
    discriminate Hfirst. }
  apply orb_false_elim in Hav. destruct Hav as [Hconf Hhave].
  apply negb_false_iff in Hconf. apply negb_false_iff in Hhave.
  set (key := cache_key (str_or voice_id (elevenlabs_voice_id (config self))) text)
    in *.
  destruct (dict_mem key (tts_cache self)) eqn:Hmem.
  - destruct (dict_mem_get _ _ Hmem) as [a Hget].
    rewrite (tts_hit self generate text voice_id a Hconf Hhave Hget) in Hfirst.
    injection Hfirst as <- <- <-.
    apply tts_hit; assumption.
  - destruct (generate text (str_or voice_id (elevenlabs_voice_id (config self)))
                (elevenlabs_stability (config self))
                (elevenlabs_clarity (config self))
                (elevenlabs_style (config self))) as [a|e] eqn:Hgen.
    + rewrite (tts_miss_success self generate text voice_id a
                 Hconf Hhave Hmem Hgen) in Hfirst.
      injection Hfirst as <- <- <-.
      apply tts_hit; [exact Hconf | exact Hhave |].
      cbn [tts_cache set_tts_cache config]. cbv zeta.
      apply dict_get_after_insert. exact Hmem.
    + rewrite (tts_miss_failure self generate text voice_id e
                 Hconf Hhave Hmem Hgen) in Hfirst.
      discriminate Hfirst.
Qed.

(** C7.  When the synthesis engine is reached (the engine is configured
    and the key is not cached) and raises, [text_to_speech] returns
    [None], the error value, with the engine and so the cache exactly
    as before; a later call with the same text and voice is a miss
    again and calls the synthesis engine once more. *)
Theorem synthesis_failure_not_cached (self : VoiceEngine) (generate : Generate)
    (text : string) (voice_id : option string) (e : exn) :
  elevenlabs_configured self = true ->
  have_elevenlabs = true ->
  dict_mem (cache_key (str_or voice_id (elevenlabs_voice_id (config self))) text)
    (tts_cache self) = false ->
  generate text (str_or voice_id (elevenlabs_voice_id (config self)))
    (elevenlabs_stability (config self)) (elevenlabs_clarity (config self))
    (elevenlabs_style (config self)) = Raises e ->
  text_to_speech generate text voice_id self
  = (Returns None, self,
     [Synthesize text (str_or voice_id (elevenlabs_voice_id (config self)));
      Log Error "TTS error"])
  /\ forall generate' : Generate,
       synthesis_calls
         (trace_of (text_to_speech generate' text voice_id
                      (state_of (text_to_speech generate text voice_id self))))
       = [(text, str_or voice_id (elevenlabs_voice_id (config self)))].
Proof.
  intros Hconf Hhave Hmiss Hgen.
  pose proof (tts_miss_failure self generate text voice_id e
                Hconf Hhave Hmiss Hgen) as Hfail.
  split; [exact Hfail|].
  intros generate'. rewrite Hfail. cbn [state_of fst snd].
  destruct (generate' text (str_or voice_id (elevenlabs_voice_id (config self)))
              (elevenlabs_stability (config self))
              (elevenlabs_clarity (config self))
              (elevenlabs_style (config self))) as [a|e'] eqn:Hgen'.
  - rewrite (tts_miss_success self generate' text voice_id a
               Hconf Hhave Hmiss Hgen').
    reflexivity.
  - rewrite (tts_miss_failure self generate' text voice_id e'
               Hconf Hhave Hmiss Hgen').
    reflexivity.
Qed.

End CacheProperties.

(** C3 at work: a first call that synthesizes, then the same call
    against an engine that raises. *)
Lemma cache_round_trip_witness :
  text_to_speech (P := Sample.platform) Sample.failing_generate "hi" None
    (state_of (text_to_speech (P := Sample.platform) Sample.echo_generate "hi" None
                 Sample.configured))
  = (Returns (Some (repeat Byte.x2a 2)),
     state_of (text_to_speech (P := Sample.platform) Sample.echo_generate "hi" None
                 Sample.configured),
     []).
Proof.
  apply (cache_round_trip (P := Sample.platform) Sample.configured _
           Sample.echo_generate "hi" None (repeat Byte.x2a 2)
           [Synthesize "hi" "21m00Tcm4TlvDq8ikWAM"]).
  vm_compute. reflexivity.
Defined.

(** C7 at work: the engine raises on a text that is not cached. *)
Lemma synthesis_failure_not_cached_witness :
  text_to_speech (P := Sample.platform) Sample.failing_generate "hi" None
    Sample.configured
  = (Returns None, Sample.configured,
     [Synthesize "hi" "21m00Tcm4TlvDq8ikWAM"; Log Error "TTS error"]).
Proof.
  apply (synthesis_failure_not_cached (P := Sample.platform) Sample.configured
           Sample.failing_generate "hi" None (ExternalError "synthesis failure"));
    reflexivity.
Defined.

Section Eviction.
Context {P : Platform}.

(** A call leaves the engine as it was, or appends its entry and
    evicts. *)
Lemma run_call_cases (self : VoiceEngine) (c : TtsCall) :
  run_call c self = self
  \/ exists audio,
       dict_mem (call_key self c) (tts_cache self) = false
       /\ run_call c self
          = set_tts_cache
              (if 50 <? len (tts_cache self ++ [(call_key self c, audio)])
               then skipn 10 (tts_cache self ++ [(call_key self c, audio)])
               else tts_cache self ++ [(call_key self c, audio)])
              self.
Proof.
  unfold run_call, call_key.
  destruct c as [generate text voice_id]. cbn [call_generate call_text call_voice].
  destruct (negb (elevenlabs_configured self) || negb have_elevenlabs) eqn:Hav.
  { left. rewrite (tts_not_available self generate text voice_id Hav). reflexivity. }
  apply orb_false_elim in Hav. destruct Hav as [Hconf Hhave].
  apply negb_false_iff in Hconf. apply negb_false_iff in Hhave.
  destruct (dict_mem (cache_key (str_or voice_id (elevenlabs_voice_id (config self)))
                        text) (tts_cache self)) eqn:Hmem.
  - left. destruct (dict_mem_get _ _ Hmem) as [a Hget].
    rewrite (tts_hit self generate text voice_id a Hconf Hhave Hget). reflexivity.
  - destruct (generate text (str_or voice_id (elevenlabs_voice_id (config self)))
                (elevenlabs_stability (config self))
                (elevenlabs_clarity (config self))
                (elevenlabs_style (config self))) as [a|e] eqn:Hgen.
    + right. exists a. split; [reflexivity|].
      rewrite (tts_miss_success self generate text voice_id a Hconf Hhave Hmem Hgen).
      reflexivity.
    + left.
      rewrite (tts_miss_failure self generate text voice_id e Hconf Hhave Hmem Hgen).
      reflexivity.
Qed.

Lemma run_call_bound (self : VoiceEngine) (c : TtsCall) :
  len (tts_cache self) <= 50 -> len (tts_cache (run_call c self)) <= 50.
Proof.
  intros H. destruct (run_call_cases self c) as [-> | (audio & _ & ->)];
    [exact H|].
  cbn [tts_cache set_tts_cache]. apply len_after_insert, H.
Qed.

Lemma run_calls_bound (calls : list TtsCall) :
  forall self : VoiceEngine,
    len (tts_cache self) <= 50 -> len (tts_cache (run_calls calls self)) <= 50.
Proof.
  induction calls as [|c rest IH]; intros self H; cbn [run_calls]; [exact H|].
  apply IH, run_call_bound, H.
Qed.

Lemma run_calls_app (l1 l2 : list TtsCall) (self : VoiceEngine) :
  run_calls (l1 ++ l2) self = run_calls l2 (run_calls l1 self).
Proof.
  revert self. induction l1 as [|c l1 IH]; intros self; cbn [run_calls app];
    [reflexivity | apply IH].
Qed.

(** A successful miss on a configured engine. *)
Lemma run_call_insert (self : VoiceEngine) (c : TtsCall) :
  elevenlabs_configured self = true ->
  have_elevenlabs = true ->
  call_succeeds self c ->
  ~ In (call_key self c) (dict_keys (tts_cache self)) ->
  exists audio,
    run_call c self
    = set_tts_cache
        (if 50 <? len (tts_cache self ++ [(call_key self c, audio)])
         then skipn 10 (tts_cache self ++ [(call_key self c, audio)])
         else tts_cache self ++ [(call_key self c, audio)])
        self.
Proof.
  intros Hconf Hhave [audio Hans] Hfresh. exists audio.
  unfold run_call, call_key, call_answer in *.
  rewrite (tts_miss_success self _ _ _ audio Hconf Hhave
             (dict_mem_fresh _ _ Hfresh) Hans).
  reflexivity.
Qed.

(** While there is room, distinct keys pile up in call order. *)
Lemma run_calls_fill (calls : list TtsCall) :
  forall self : VoiceEngine,
    elevenlabs_configured self = true ->
    have_elevenlabs = true ->
    Forall (call_succeeds self) calls ->
    NoDup (dict_keys (tts_cache self) ++ map (call_key self) calls) ->
    len (tts_cache self) + len calls <= 50 ->
    exists entries,
      map fst entries = map (call_key self) calls
      /\ run_calls calls self = set_tts_cache (tts_cache self ++ entries) self.
Proof.
  induction calls as [|c rest IH]; intros self Hconf Hhave Hok Hnd Hroom.
  - exists []. split; [reflexivity|]. cbn [run_calls].
    rewrite app_nil_r, set_tts_cache_same. reflexivity.
  - inversion Hok as [|? ? Hc Hrest]; subst.
    cbn [map] in Hnd.
    assert (Hfresh : ~ In (call_key self c) (dict_keys (tts_cache self))).
    { apply NoDup_remove_2 in Hnd. intros Hin. apply Hnd.
      apply in_or_app. left. exact Hin. }
    destruct (run_call_insert self c Hconf Hhave Hc Hfresh) as [audio Hstep].
    assert (Hlen : (50 <? len (tts_cache self ++ [(call_key self c, audio)]))
                   = false).
    { apply Z.ltb_ge. rewrite len_snoc. unfold len in *.
      cbn [List.length] in Hroom. lia. }
    rewrite Hlen in Hstep.
    cbn [run_calls]. rewrite Hstep.
    set (self1 := set_tts_cache (tts_cache self ++ [(call_key self c, audio)]) self).
    destruct (IH self1) as (entries & Hkeys & Hrun).
    + exact Hconf.
    + exact Hhave.
    + exact Hrest.
    + cbn [self1 tts_cache set_tts_cache].
      unfold dict_keys. rewrite map_app. cbn [map fst].
      rewrite <- app_assoc. exact Hnd.
    + cbn [self1 tts_cache set_tts_cache]. rewrite len_snoc.
      unfold len in *. cbn [List.length] in Hroom. lia.
    + exists ((call_key self c, audio) :: entries). split.
      * cbn [map fst]. f_equal. exact Hkeys.
      * rewrite Hrun. cbn [self1 tts_cache set_tts_cache].
        rewrite <- app_assoc. reflexivity.
Qed.

(** C2.  The cache starts empty.  From any engine whose cache holds at
    most 50 entries, every sequence of [text_to_speech] calls leaves at
    most 50 entries, so the bound holds between any two calls.  And 51
    calls with pairwise distinct keys, each answered by the synthesis
    engine, made on a configured engine with an empty cache, leave the
    keys of the last 41 calls in call order: the 10 oldest keys, and
    only they, are gone. *)
Theorem cache_bounded_oldest_evicted (self : VoiceEngine) :
  (forall cfg WhisperModel webrtcvad_Vad,
     tts_cache (state_of (__init__ cfg WhisperModel webrtcvad_Vad)) = [])
  /\ (forall calls,
        len (tts_cache self) <= 50 ->
        len (tts_cache (run_calls calls self)) <= 50)
  /\ (forall calls,
        elevenlabs_configured self = true ->
        have_elevenlabs = true ->
        tts_cache self = [] ->
        List.length calls = 51%nat ->
        NoDup (map (call_key self) calls) ->
        Forall (call_succeeds self) calls ->
        let final := tts_cache (run_calls calls self) in
        dict_keys final = skipn 10 (map (call_key self) calls)
        /\ len final = 41
        /\ (forall k, In k (firstn 10 (map (call_key self) calls)) ->
                      dict_mem k final = false)
        /\ (forall k, In k (skipn 10 (map (call_key self) calls)) ->
                      dict_mem k final = true)).
Proof.
  split; [|split].
  - intros cfg WhisperModel webrtcvad_Vad.
    unfold __init__, _initialize_components. run_py.
    destruct have_whisper; cbn [app].
    + destruct (WhisperModel _); cbn [app]; [|reflexivity].
      destruct have_webrtcvad; cbn [app]; [|reflexivity].
      destruct (webrtcvad_Vad _); reflexivity.
    + destruct have_webrtcvad; cbn [app]; [|reflexivity].
      destruct (webrtcvad_Vad _); reflexivity.
  - intros calls. apply run_calls_bound.
  - intros calls Hconf Hhave Hempty Hlen Hnd Hok final.
    destruct (exists_last (l := calls)) as (front & c & Hcalls).
    { intros ->. discriminate Hlen. }
    subst calls. rewrite length_app in Hlen. cbn [List.length] in Hlen.
    rewrite map_app in Hnd. cbn [map] in Hnd.
    apply Forall_app in Hok. destruct Hok as [Hfront Hc].
    inversion Hc as [|? ? Hc1 _]; subst.
    destruct (run_calls_fill front self Hconf Hhave Hfront) as (entries & Hkeys & Hrun).
    { rewrite Hempty. cbn [dict_keys map app].
      apply NoDup_app_remove_r in Hnd. exact Hnd. }
    { rewrite Hempty. unfold len. cbn [List.length]. lia. }
    rewrite Hempty in Hrun. cbn [app] in Hrun.
    set (self50 := set_tts_cache entries self) in *.
    assert (Hfresh : ~ In (call_key self50 c) (dict_keys (tts_cache self50))).
    { cbn [self50 tts_cache set_tts_cache]. unfold dict_keys. rewrite Hkeys.
      change (call_key self50 c) with (call_key self c).
      apply NoDup_remove_2 in Hnd. rewrite app_nil_r in Hnd. exact Hnd. }
    destruct (run_call_insert self50 c Hconf Hhave Hc1 Hfresh) as [audio Hstep].
    change (call_key self50 c) with (call_key self c) in Hstep.
    cbn [self50 tts_cache set_tts_cache] in Hstep. fold self50 in Hstep.
    assert (Hentries : List.length entries = 50%nat).
    { rewrite <- (length_map fst), Hkeys, length_map. lia. }
    assert (Hbig : (50 <? len (entries ++ [(call_key self c, audio)])) = true).
    { apply Z.ltb_lt. rewrite len_snoc. unfold len. lia. }
    rewrite Hbig in Hstep.
    assert (Hfinal : final = skipn 10 (entries ++ [(call_key self c, audio)])).
    { unfold final. rewrite run_calls_app, Hrun. cbn [run_calls].
      rewrite Hstep. reflexivity. }
    assert (Hk : dict_keys final
                 = skipn 10 (map (call_key self) (front ++ [c]))).
    { rewrite Hfinal. unfold dict_keys. rewrite <- skipn_map, !map_app, Hkeys.
      reflexivity. }
    split; [exact Hk|]. split; [|split].
    + rewrite Hfinal. unfold len. rewrite length_skipn, length_app.
      cbn [List.length]. lia.
    + intros k Hin. apply dict_mem_fresh. rewrite Hk. intros Hin'.
      assert (Hnd' : NoDup (map (call_key self) (front ++ [c]))).
      { rewrite map_app. exact Hnd. }
      rewrite <- (firstn_skipn 10 (map (call_key self) (front ++ [c]))) in Hnd'.
      exact (NoDup_app_disjoint _ _ k Hnd' Hin Hin').
    + intros k Hin. apply dict_mem_keys. rewrite Hk. exact Hin.
Qed.

End Eviction.

(** C2 at work: 51 texts of distinct lengths on the configured sample
    engine. *)
Lemma cache_bounded_oldest_evicted_witness :
  dict_keys (tts_cache (run_calls (P := Sample.platform) (Sample.calls 51)
                          Sample.configured))
  = skipn 10 (map (call_key (P := Sample.platform) Sample.configured)
                (Sample.calls 51))
  /\ len (tts_cache (run_calls (P := Sample.platform) (Sample.calls 60)
                       Sample.configured)) <= 50.
Proof.
  destruct (cache_bounded_oldest_evicted (P := Sample.platform) Sample.configured)
    as (_ & Hbound & Hevict).
  split.
  - assert (Hnd : NoDup (map (call_key (P := Sample.platform) Sample.configured)
                           (Sample.calls 51))).
    { apply distinct_NoDup. vm_compute. reflexivity. }
    assert (Hok : Forall (call_succeeds (P := Sample.platform) Sample.configured)
                    (Sample.calls 51)).
    { apply Forall_forall. intros c Hin. unfold Sample.calls in Hin.
      apply in_map_iff in Hin. destruct Hin as (text & <- & _).
      eexists. reflexivity. }
    destruct (Hevict (Sample.calls 51) eq_refl eq_refl eq_refl eq_refl Hnd Hok)
      as (Hkeys & _).
    exact Hkeys.
  - apply Hbound. vm_compute. congruence.
Defined.

(* ------------------------------------------------------------------ *)
(** ** Further properties of the engine *)
(* ------------------------------------------------------------------ *)

Section Lifecycle.
Context {P : Platform}.

(** X1.  Both components are loaded inside one [try]: when the Whisper
    constructor raises, the classifier is never created either, even
    though webrtcvad is there, and construction still returns normally;
    when the faster-whisper package is missing altogether, the
    classifier is created as usual. *)
Theorem init_components_coupled (cfg : option VoiceConfig)
    (WhisperModel : string -> outcome Whisper)
    (webrtcvad_Vad : Z -> outcome Vad) :
  let fresh := VoiceEngine_fresh cfg in
  let built := __init__ cfg WhisperModel webrtcvad_Vad in
  (forall e,
     have_whisper = true ->
     WhisperModel (whisper_model_size (config fresh)) = Raises e ->
     built = (Returns tt, fresh,
              [Log Info "Loading Whisper model";
               Log Error "Error initializing voice components"]))
  /\ (forall v,
        have_whisper = false ->
        have_webrtcvad = true ->
        webrtcvad_Vad (vad_aggressiveness (config fresh)) = Returns v ->
        result_of built = Returns tt
        /\ state_of built = set_vad (Some v) fresh)
  /\ (forall w v,
        have_whisper = true ->
        have_webrtcvad = true ->
        WhisperModel (whisper_model_size (config fresh)) = Returns w ->
        webrtcvad_Vad (vad_aggressiveness (config fresh)) = Returns v ->
        result_of built = Returns tt
        /\ state_of built = set_vad (Some v) (set_whisper_model (Some w) fresh)).
Proof.
  intros fresh built. unfold built, __init__, _initialize_components.
  split; [|split].
  - intros e Hw Hraise. run_py. rewrite Hw. cbn [app].
    fold fresh. rewrite Hraise. reflexivity.
  - intros v Hw Hv Hret. run_py. rewrite Hw, Hv. cbn [app].
    fold fresh. rewrite Hret. split; reflexivity.
  - intros w v Hw Hv Hwret Hvret. run_py. rewrite Hw, Hv. cbn [app].
    fold fresh. rewrite Hwret. cbn [app]. 
    change (config (set_whisper_model (Some w) fresh)) with (config fresh).
    rewrite Hvret. split; reflexivity.
Qed.

(** X2.  Starting an idle engine that has a model and the audio packages,
    with start and stop callbacks that do not raise, and then stopping
    it: both calls return normally, exactly one thread is started and
    then joined, each registered callback is called once, in that order,
    and the engine ends idle again.  It is not the engine it was: the
    thread object stays in [recording_thread] and a callback passed to
    [start_listening] stays registered. *)
Theorem start_then_stop (self : VoiceEngine) (model : Whisper)
    (callback : option (string -> outcome unit)) :
  is_listening self = false ->
  whisper_model self = Some model ->
  have_audio = true ->
  (forall e, on_listening_start self <> Some (Raises e)) ->
  (forall e, on_listening_stop self <> Some (Raises e)) ->
  let registered :=
    match callback with
    | Some cb => set_on_speech_detected (Some cb) self
    | None => self
    end in
  let started := set_recording_thread (Some RecordingThread)
                   (set_is_listening true registered) in
  start_listening callback self
  = (Returns tt, started,
     [ThreadStart]
     ++ match on_listening_start self with
        | Some _ => [Callback ListeningStarted]
        | None => []
        end
     ++ [Log Info "Started listening for speech"])
  /\ stop_listening started
     = (Returns tt, set_is_listening false started,
        [ThreadJoin]
        ++ match on_listening_stop self with
           | Some _ => [Callback ListeningStopped]
           | None => []
           end
        ++ [Log Info "Stopped listening for speech"]).
Proof.
  intros Hidle Hmodel Haudio Hstart Hstop registered started. split.
  - unfold start_listening. run_py. rewrite Hidle, Hmodel, Haudio. cbn [negb].
    subst started registered.
    destruct callback as [cb|];
      destruct (on_listening_start self) as [[[]|e]|];
      try reflexivity; exfalso; exact (Hstart e eq_refl).
  - unfold stop_listening. run_py. subst started registered.
    destruct callback as [cb|]; cbn;
      destruct (on_listening_stop self) as [[[]|e]|];
      try reflexivity; exfalso; exact (Hstop e eq_refl).
Qed.

(** X3.  [start_listening] on an idle engine without a Whisper model, or
    in a process without sounddevice and numpy, logs one error and
    changes nothing: no thread, no event, and the callback it was given
    is not registered. *)
Theorem start_refused (self : VoiceEngine)
    (callback : option (string -> outcome unit)) :
  is_listening self = false ->
  whisper_model self = None \/ have_audio = false ->
  exists msg, start_listening callback self = (Returns tt, self, [Log Error msg]).
Proof.
  intros Hidle Hmissing. unfold start_listening. run_py. rewrite Hidle.
  destruct (whisper_model self) as [model|].
  - destruct Hmissing as [Hm|Ha]; [discriminate Hm|]. rewrite Ha. cbn [negb].
    eexists. reflexivity.
  - eexists. reflexivity.
Qed.

(** X4.  The start and stop callbacks are called after the engine has
    changed state.  When [on_listening_start] raises, the exception
    leaves [start_listening], but the engine is listening and its thread
    is started; when [on_listening_stop] raises, the exception leaves
    [stop_listening], but the engine is idle and its thread is joined. *)
Theorem lifecycle_callback_raises (self : VoiceEngine) (e : exn) :
  (forall model callback,
     is_listening self = false ->
     whisper_model self = Some model ->
     have_audio = true ->
     on_listening_start self = Some (Raises e) ->
     result_of (start_listening callback self) = Raises e
     /\ is_listening (state_of (start_listening callback self)) = true
     /\ trace_of (start_listening callback self)
        = [ThreadStart; Callback ListeningStarted])
  /\ (is_listening self = true ->
      on_listening_stop self = Some (Raises e) ->
      result_of (stop_listening self) = Raises e
      /\ is_listening (state_of (stop_listening self)) = false
      /\ trace_of (stop_listening self)
         = match recording_thread self with
           | Some _ => [ThreadJoin; Callback ListeningStopped]
           | None => [Callback ListeningStopped]
           end).
Proof.
  split.
  - intros model callback Hidle Hmodel Haudio Hcb.
    unfold start_listening. run_py. rewrite Hidle, Hmodel, Haudio, Hcb.
    destruct callback; repeat split; reflexivity.
  - intros Hon Hcb. unfold stop_listening. run_py. rewrite Hon, Hcb.
    destruct (recording_thread self); repeat split; reflexivity.
Qed.


Lemma chunk_size_errors (cfg : VoiceConfig) (e : exn) :
  chunk_size_of cfg = Raises e -> e = OverflowError \/ e = ValueError.
Proof.
  unfold chunk_size_of, float_of_int, int_of_float.
  destruct (binary64 (inject_Z (sample_rate cfg)));
    try (intros H; injection H as <-; auto).
  destruct (float_mul _ _); intros H; try discriminate H;
    injection H as <-; auto.
Qed.

Lemma max_silence_chunks_errors (cfg : VoiceConfig) (e : exn) :
  max_silence_chunks_of cfg = Raises e ->
  e = ZeroDivisionError \/ e = OverflowError \/ e = ValueError.
Proof.
  unfold max_silence_chunks_of, truediv, int_of_float.
  destruct (is_zero (binary64 (chunk_duration cfg)));
    [intros H; injection H as <-; auto|].
  match goal with
  | |- match ?x with _ => _ end = _ -> _ => destruct x
  end; intros H; try discriminate H; injection H as <-; auto.
Qed.

(** X6.  An exception leaves [_recording_loop] exactly when the chunk
    size or the silence threshold cannot be computed, which happens
    before the stream is opened and outside every handler; it is then a
    [ZeroDivisionError], an [OverflowError] or a [ValueError].  A zero
    [chunk_duration] gives the [ZeroDivisionError]; a float product or
    quotient that is infinite gives the [OverflowError].  When both
    compute, the loop returns normally, whatever the device, the
    classifier, the recognition model and the callback do. *)
Theorem recording_loop_escapes (self : VoiceEngine)
    (InputStream : Z -> outcome unit) (items : list QueueGet) :
  (forall e,
     chunk_size_of (config self) = Raises e ->
     _recording_loop InputStream items self = (Raises e, self, []))
  /\ (forall n e,
        chunk_size_of (config self) = Returns n ->
        max_silence_chunks_of (config self) = Raises e ->
        _recording_loop InputStream items self = (Raises e, self, []))
  /\ (forall n m,
        chunk_size_of (config self) = Returns n ->
        max_silence_chunks_of (config self) = Returns m ->
        result_of (_recording_loop InputStream items self) = Returns tt)
  /\ (forall e,
        result_of (_recording_loop InputStream items self) = Raises e ->
        e = ZeroDivisionError \/ e = OverflowError \/ e = ValueError)
  /\ ((chunk_duration (config self) == 0)%Q ->
      max_silence_chunks_of (config self) = Raises ZeroDivisionError).
Proof.
  assert (Hok : forall n m,
            chunk_size_of (config self) = Returns n ->
            max_silence_chunks_of (config self) = Returns m ->
            result_of (_recording_loop InputStream items self) = Returns tt).
  { intros n m Hn Hm. unfold _recording_loop. run_py. rewrite Hn, Hm. cbn [app].
    destruct (InputStream n) as [[]|e]; [|reflexivity].
    destruct (while_listening_total self m items Locals_initial)
      as (loc' & t & Hrun & _).
    rewrite Hrun. reflexivity. }
  split; [|split; [|split; [exact Hok|split]]].
  - intros e Hn. unfold _recording_loop. run_py. rewrite Hn. reflexivity.
  - intros n e Hn Hm. unfold _recording_loop. run_py. rewrite Hn, Hm. reflexivity.
  - intros e Hraise.
    destruct (chunk_size_of (config self)) as [n|e1] eqn:Hn.
    + destruct (max_silence_chunks_of (config self)) as [m|e2] eqn:Hm.
      * rewrite (Hok n m eq_refl eq_refl) in Hraise. discriminate Hraise.
      * unfold _recording_loop in Hraise. run_py. rewrite Hn, Hm in Hraise.
        cbn in Hraise. injection Hraise as <-.
        exact (max_silence_chunks_errors _ _ Hm).
    + unfold _recording_loop in Hraise. run_py. rewrite Hn in Hraise.
      cbn in Hraise. injection Hraise as <-.
      destruct (chunk_size_errors _ _ Hn) as [-> | ->]; auto.
  - intros Hcd. apply Qeq_bool_iff in Hcd.
    assert (Hz : binary64 (chunk_duration (config self)) = Finite 0)
      by (unfold binary64; rewrite Hcd; reflexivity).
    unfold max_silence_chunks_of, truediv. rewrite Hz. reflexivity.
Qed.

End Lifecycle.

Section Segments.
Context {P : Platform}.

Lemma verdict_classified (self : VoiceEngine) (chunk : ndarray) :
  classified self chunk (verdict self chunk).
Proof.
  unfold classified, verdict.
  destruct (is_speech_total self (pcm16_bytes chunk)) as (b & t & Hb & _).
  rewrite Hb. reflexivity.
Qed.

Lemma chunks_of_Got (chunks : list ndarray) : chunks_of (map Got chunks) = chunks.
Proof.
  induction chunks as [|c chunks IH]; [reflexivity|].
  cbn [map chunks_of flat_map app]. fold (chunks_of (map Got chunks)).
  rewrite IH. reflexivity.
Qed.

Lemma chunks_of_app (xs ys : list QueueGet) :
  chunks_of (xs ++ ys) = chunks_of xs ++ chunks_of ys.
Proof. unfold chunks_of. apply flat_map_app. Qed.

Lemma while_not_listening (self : VoiceEngine) (max : Z) (items : list QueueGet)
    (loc : Locals) :
  is_listening self = false ->
  while_listening max items loc self = (Returns loc, self, []).
Proof.
  intros Hoff. destruct items as [|item rest]; [reflexivity|].
  cbn [while_listening]. run_py. rewrite Hoff. reflexivity.
Qed.

(** The loop on a listening engine, for any delivery of the queue, is
    [segment] on the chunks delivered, each with its verdict. *)
Lemma while_listening_chunks (self : VoiceEngine) (max : Z) :
  is_listening self = true ->
  forall (items : list QueueGet) (loc : Locals),
    exists t,
      while_listening max items loc self
      = (Returns (snd (segment max (labelled self (chunks_of items)) loc)), self, t)
      /\ utterances t = fst (segment max (labelled self (chunks_of items)) loc).
Proof.
  intros Hon. induction items as [|[chunk|] rest IH]; intros loc.
  - exists []. split; reflexivity.
  - cbn [while_listening]. run_py. rewrite Hon.
    destruct (loop_body_got self max chunk loc) as (b & t1 & Hb & Hstep & Hu1 & _).
    rewrite (classified_functional _ _ _ _ Hb (verdict_classified self chunk)) in *.
    rewrite Hstep.
    change (chunks_of (Got chunk :: rest)) with (chunk :: chunks_of rest).
    cbn [labelled map segment].
    fold (labelled self (chunks_of rest)).
    destruct (accumulate max (verdict self chunk) chunk loc) as [[u|] loc'];
      cbn [fst snd] in *.
    + destruct (IH loc') as (t2 & Hrest & Hu2). rewrite Hrest.
      destruct (segment max (labelled self (chunks_of rest)) loc') as [us final].
      cbn [fst snd] in *.
      eexists. split; [reflexivity|]. split_trace.
      rewrite Hu1, Hu2. reflexivity.
    + destruct (IH loc') as (t2 & Hrest & Hu2). rewrite Hrest.
      eexists. split; [reflexivity|]. split_trace.
      rewrite Hu1, Hu2. reflexivity.
  - cbn [while_listening loop_body]. run_py. rewrite Hon.
    change (chunks_of (QueueEmpty :: rest)) with (chunks_of rest).
    destruct (IH loc) as (t2 & Hrest & Hu2). rewrite Hrest.
    eexists. split; [reflexivity|]. exact Hu2.
Qed.

(** *** Facts about [segment] for verdicts given by a function *)

Section Labels.
Variable f : ndarray -> bool.
Variable max : Z.

Let lab (chunks : list ndarray) : list (bool * ndarray) :=
  map (fun chunk => (f chunk, chunk)) chunks.

Lemma segment_headed (chunks : list ndarray) :
  forall loc,
    match audio_buffer loc with [] => True | c :: _ => f c = true end ->
    Forall (fun u => exists c r, u = c :: r /\ f c = true)
      (fst (segment max (lab chunks) loc)).
Proof.
  induction chunks as [|chunk chunks IH]; intros loc Hhead; [constructor|].
  cbn [lab map segment]. fold (lab chunks). unfold accumulate.
  set (buffer1 := if f chunk then audio_buffer loc ++ [chunk]
                  else if truthy_list (audio_buffer loc)
                       then audio_buffer loc ++ [chunk] else audio_buffer loc).
  assert (H1 : match buffer1 with [] => True | c :: _ => f c = true end).
  { subst buffer1. destruct (f chunk) eqn:Hf.
    - destruct (audio_buffer loc); [exact Hf | exact Hhead].
    - destruct (audio_buffer loc); [exact I | exact Hhead]. }
  destruct (truthy_list buffer1 && _) eqn:Hemit.
  - specialize (IH Locals_initial I).
    destruct (segment max (lab chunks) Locals_initial) as [us final].
    cbn [fst] in *. constructor; [|exact IH].
    destruct buffer1 as [|c r]; [discriminate Hemit|].
    exists c, r. split; [reflexivity | exact H1].
  - apply IH. exact H1.
Qed.

Lemma segment_keeps_speech (chunks : list ndarray) :
  forall loc,
    filter f (List.concat (fst (segment max (lab chunks) loc))
              ++ audio_buffer (snd (segment max (lab chunks) loc)))
    = filter f (audio_buffer loc ++ chunks).
Proof.
  induction chunks as [|chunk chunks IH]; intros loc.
  - cbn. rewrite app_nil_r. reflexivity.
  - cbn [lab map segment]. fold (lab chunks). unfold accumulate.
    set (buffer1 := if f chunk then audio_buffer loc ++ [chunk]
                    else if truthy_list (audio_buffer loc)
                         then audio_buffer loc ++ [chunk] else audio_buffer loc).
    assert (H1 : filter f buffer1 ++ filter f chunks
                 = filter f (audio_buffer loc ++ chunk :: chunks)).
    { subst buffer1. rewrite (filter_app f (audio_buffer loc)). cbn [filter].
      destruct (f chunk) eqn:Hf.
      - rewrite filter_app. cbn [filter]. rewrite Hf, <- app_assoc. reflexivity.
      - destruct (truthy_list (audio_buffer loc)); [|reflexivity].
        rewrite filter_app. cbn [filter]. rewrite Hf, app_nil_r. reflexivity. }
    destruct (truthy_list buffer1 && _).
    + specialize (IH Locals_initial).
      destruct (segment max (lab chunks) Locals_initial) as [us final].
      cbn [fst snd List.concat] in *. rewrite <- app_assoc, filter_app, IH.
      exact H1.
    + rewrite IH. cbn [audio_buffer]. rewrite filter_app. exact H1.
Qed.

Lemma segment_idle_count (frames : list (bool * ndarray)) :
  forall a b,
    fst (segment max frames {| audio_buffer := []; silence_chunks := a |})
    = fst (segment max frames {| audio_buffer := []; silence_chunks := b |})
    /\ audio_buffer
         (snd (segment max frames {| audio_buffer := []; silence_chunks := a |}))
       = audio_buffer
           (snd (segment max frames {| audio_buffer := []; silence_chunks := b |})).
Proof.
  induction frames as [|[[|] chunk] frames IH]; intros a b.
  - split; reflexivity.
  - cbn [segment]. unfold accumulate. cbn [audio_buffer silence_chunks app truthy_list andb].
    split; reflexivity.
  - cbn [segment]. unfold accumulate. cbn [audio_buffer silence_chunks app truthy_list andb].
    apply IH.
Qed.

Lemma segment_leading_silence (silent : list ndarray) (frames : list (bool * ndarray)) :
  Forall (fun c => f c = false) silent ->
  forall a,
    segment max (lab silent ++ frames) {| audio_buffer := []; silence_chunks := a |}
    = segment max frames
        {| audio_buffer := []; silence_chunks := a + len silent |}.
Proof.
  induction 1 as [|c silent Hc _ IH]; intros a.
  - cbn [lab map app]. unfold len. cbn [List.length]. rewrite Z.add_0_r. reflexivity.
  - cbn [lab map app segment]. fold (lab silent). rewrite Hc.
    unfold accumulate. cbn [audio_buffer silence_chunks app truthy_list andb].
    rewrite IH. unfold len. cbn [List.length].
    replace (a + 1 + Z.of_nat (List.length silent))
      with (a + Z.of_nat (S (List.length silent))) by lia.
    reflexivity.
Qed.

Lemma segment_speech_chunk (c : ndarray) (frames : list (bool * ndarray))
    (buffer : list ndarray) (j : Z) :
  1 <= max ->
  f c = true ->
  segment max (lab [c] ++ frames) {| audio_buffer := buffer; silence_chunks := j |}
  = segment max frames {| audio_buffer := buffer ++ [c]; silence_chunks := 0 |}.
Proof.
  intros Hmax Hc. cbn [lab map app segment]. rewrite Hc. unfold accumulate.
  cbn [audio_buffer silence_chunks]. rewrite truthy_list_snoc.
  destruct (Z.leb_spec max 0); [lia|]. reflexivity.
Qed.

Lemma segment_speech_run (sp : list ndarray) (frames : list (bool * ndarray)) :
  1 <= max ->
  Forall (fun c => f c = true) sp ->
  forall buffer j,
    segment max (lab sp ++ frames) {| audio_buffer := buffer; silence_chunks := j |}
    = segment max frames
        {| audio_buffer := buffer ++ sp;
           silence_chunks := match sp with [] => j | _ :: _ => 0 end |}.
Proof.
  intros Hmax. induction 1 as [|c sp Hc _ IH]; intros buffer j.
  - cbn [lab map app]. rewrite app_nil_r. reflexivity.
  - change (lab (c :: sp) ++ frames) with (lab [c] ++ (lab sp ++ frames)).
    rewrite (segment_speech_chunk c _ buffer j Hmax Hc), IH.
    rewrite <- app_assoc. cbn [app]. destruct sp; reflexivity.
Qed.

Lemma segment_silence_run (ss : list ndarray) (frames : list (bool * ndarray)) :
  Forall (fun c => f c = false) ss ->
  forall buffer j,
    buffer <> [] ->
    j + len ss < max ->
    segment max (lab ss ++ frames) {| audio_buffer := buffer; silence_chunks := j |}
    = segment max frames
        {| audio_buffer := buffer ++ ss; silence_chunks := j + len ss |}.
Proof.
  induction 1 as [|c ss Hc _ IH]; intros buffer j Hne Hshort.
  - cbn [lab map app]. unfold len. cbn [List.length].
    rewrite app_nil_r, Z.add_0_r. reflexivity.
  - unfold len in Hshort. cbn [List.length] in Hshort.
    cbn [lab map app segment]. fold (lab ss). rewrite Hc. unfold accumulate.
    cbn [audio_buffer silence_chunks].
    destruct buffer as [|b0 buffer]; [congruence|]. cbn [truthy_list].
    rewrite truthy_list_snoc.
    destruct (Z.leb_spec max (j + 1)); [lia|]. cbn [andb].
    rewrite IH.
    + rewrite <- app_assoc. cbn [app]. unfold len. cbn [List.length].
      replace (j + 1 + Z.of_nat (List.length ss))
        with (j + Z.of_nat (S (List.length ss))) by lia.
      reflexivity.
    + destruct ((b0 :: buffer) ++ [c]) eqn:E; [|discriminate].
      destruct buffer; discriminate E.
    + unfold len. lia.
Qed.

Lemma segment_closing_silence (c : ndarray) (frames : list (bool * ndarray))
    (buffer : list ndarray) (j : Z) :
  f c = false ->
  buffer <> [] ->
  max <= j + 1 ->
  segment max (lab [c] ++ frames) {| audio_buffer := buffer; silence_chunks := j |}
  = ((buffer ++ [c]) :: fst (segment max frames Locals_initial),
     snd (segment max frames Locals_initial)).
Proof.
  intros Hc Hne Hfull. cbn [lab map app segment]. rewrite Hc. unfold accumulate.
  cbn [audio_buffer silence_chunks].
  destruct buffer as [|b0 buffer]; [congruence|]. cbn [truthy_list].
  rewrite truthy_list_snoc.
  destruct (Z.leb_spec max (j + 1)); [|lia]. cbn [andb].
  destruct (segment max frames Locals_initial). reflexivity.
Qed.

End Labels.

End Segments.

Section RecognitionFailure.
Context {P : Platform}.

(** [_transcribe_audio] on an audio the recognition engine fails on. *)
Lemma transcribe_fails_on (self : VoiceEngine) (audio : ndarray) :
  recognition_fails_on self audio ->
  exists t,
    _transcribe_audio audio self = (Returns "", self, t) /\ speech_events t = [].
Proof.
  unfold recognition_fails_on, _transcribe_audio. run_py.
  destruct (whisper_model self) as [model|].
  - intros [e He]. rewrite He. eexists. split; reflexivity.
  - intros _. eexists. split; reflexivity.
Qed.

Lemma process_buffer_fails (self : VoiceEngine) (buffer : list ndarray) :
  utterance_fails self buffer ->
  exists t,
    _process_audio_buffer buffer self = (Returns tt, self, t)
    /\ speech_events t = [].
Proof.
  intros Hfail. destruct buffer as [|c rest].
  - exists []. split; reflexivity.
  - unfold _process_audio_buffer. cbn [truthy_list negb]. run_py.
    destruct (concatenate (c :: rest)) as [audio|e] eqn:Hcat.
    + destruct (transcribe_fails_on self audio (Hfail audio Hcat))
        as (t & Ht & Hs).
      rewrite Ht. cbn [truthy_str andb]. eexists. split; [reflexivity|].
      split_trace. rewrite Hs. reflexivity.
    + eexists. split; reflexivity.
Qed.

(** One iteration: it ends in [Continue], hands over what [accumulate]
    says, and its speech events are those of the buffer handed over. *)
Lemma loop_body_per_utterance (self : VoiceEngine) (max : Z) (item : QueueGet)
    (loc : Locals) :
  exists loc' t,
    loop_body max item loc self = (Returns (Continue loc'), self, t)
    /\ (List.length (utterances t) <= 1)%nat
    /\ speech_events t = flat_map (events_of self) (utterances t).
Proof.
  destruct item as [chunk|];
    [|exists loc, []; split; [reflexivity|]; split; [cbn; lia | reflexivity]].
  destruct (is_speech_total self (pcm16_bytes chunk)) as (b & t0 & Hb & Hu0 & Hs0).
  unfold loop_body. run_py. rewrite Hb. cbn [fst snd].
  match goal with
  | |- context [if ?cond then _ else _] =>
      match cond with
      | (truthy_list ?u && _)%bool => destruct cond eqn:Hemit; [assert (Hne : u <> [])|]
      end
  end.
  - intros Hnil. rewrite Hnil in Hemit. discriminate Hemit.
  - match goal with
    | |- context [_process_audio_buffer ?u self] =>
        destruct (process_buffer_total self u Hne) as (t & Ht & Hu & _);
        assert (Hev : events_of self u = speech_events t)
          by (unfold events_of; rewrite Ht; reflexivity)
    end.
    rewrite Ht. eexists _, _. split; [reflexivity|].
    split_trace. rewrite Hu0, Hs0, Hu. cbn [app List.length flat_map].
    rewrite Hev, !app_nil_r. split; [lia | reflexivity].
  - eexists _, _. split; [reflexivity|].
    split_trace. rewrite Hu0, Hs0. split; [cbn; lia | reflexivity].
Qed.

Lemma while_listening_per_utterance (self : VoiceEngine) (max : Z)
    (items : list QueueGet) :
  forall loc,
    exists loc' t,
      while_listening max items loc self = (Returns loc', self, t)
      /\ speech_events t = flat_map (events_of self) (utterances t).
Proof.
  induction items as [|item rest IH]; intros loc.
  - exists loc, []. split; reflexivity.
  - cbn [while_listening]. run_py.
    destruct (is_listening self); [|exists loc, []; split; reflexivity].
    destruct (loop_body_per_utterance self max item loc)
      as (loc1 & t1 & Hstep & _ & Hs1).
    rewrite Hstep.
    destruct (IH loc1) as (loc' & t2 & Hrest & Hs2).
    rewrite Hrest. exists loc'. eexists. split; [reflexivity|].
    rewrite speech_events_app, utterances_app, flat_map_app, Hs1, Hs2.
    reflexivity.
Qed.

(** C4.  Utterance by utterance.  When the recognition engine fails on
    one audio (there is no model, or the model raises on this audio,
    whatever it does on others), [_transcribe_audio] returns the empty
    string; [_process_audio_buffer] on an utterance the engine fails on
    returns normally, with the engine unchanged and [on_speech_detected]
    not called.  The loop goes on: every iteration ends in [Continue],
    never in [Break] or an exception; a run of the loop returns normally,
    hands over on a listening engine exactly the utterances that
    [segment] cuts from the chunks delivered, whatever recognition did
    on the earlier ones, and its speech events are those of its
    utterances one by one, a failed utterance giving none.  In
    particular, with an engine that fails on every audio, no run of any
    of these produces a speech event. *)
Theorem recognition_failure_silent (self : VoiceEngine) :
  (forall audio,
     recognition_fails_on self audio ->
     exists t,
       _transcribe_audio audio self = (Returns "", self, t)
       /\ speech_events t = [])
  /\ (forall buffer,
        utterance_fails self buffer ->
        (exists t,
           _process_audio_buffer buffer self = (Returns tt, self, t)
           /\ speech_events t = [])
        /\ events_of self buffer = [])
  /\ (forall max item loc,
        exists loc' t,
          loop_body max item loc self = (Returns (Continue loc'), self, t)
          /\ (List.length (utterances t) <= 1)%nat
          /\ speech_events t = flat_map (events_of self) (utterances t))
  /\ (forall max items loc,
        exists loc' t,
          while_listening max items loc self = (Returns loc', self, t)
          /\ speech_events t = flat_map (events_of self) (utterances t)
          /\ (is_listening self = true ->
              utterances t
              = fst (segment max (labelled self (chunks_of items)) loc)))
  /\ (recognition_fails self ->
      (forall audio, result_of (_transcribe_audio audio self) = Returns "")
      /\ (forall buffer,
            exists t,
              _process_audio_buffer buffer self = (Returns tt, self, t)
              /\ speech_events t = [])
      /\ (forall max item loc,
            exists loc' t,
              loop_body max item loc self = (Returns (Continue loc'), self, t)
              /\ speech_events t = [])
      /\ (forall max items loc,
            exists loc' t,
              while_listening max items loc self = (Returns loc', self, t)
              /\ speech_events t = [])).
Proof.
  split; [|split; [|split; [|split]]].
  - apply transcribe_fails_on.
  - intros buffer Hfail.
    destruct (process_buffer_fails self buffer Hfail) as (t & Ht & Hs).
    split; [exists t; split; assumption|].
    unfold events_of. rewrite Ht. exact Hs.
  - apply loop_body_per_utterance.
  - intros max items loc.
    destruct (while_listening_per_utterance self max items loc)
      as (loc' & t & Hrun & Hs).
    exists loc', t. split; [exact Hrun|]. split; [exact Hs|].
    intros Hon.
    destruct (while_listening_chunks self max Hon items loc) as (t' & Hrun' & Hu').
    rewrite Hrun in Hrun'. injection Hrun' as _ <-. exact Hu'.
  - intros Hfail. split; [|split; [|split]].
    + intros audio.
      destruct (transcribe_total self audio) as (text & t & Ht & _ & _ & Hempty).
      rewrite Ht. cbn. rewrite (Hempty Hfail). reflexivity.
    + intros [|c rest].
      * exists []. split; reflexivity.
      * destruct (process_buffer_total self (c :: rest)) as (t & Ht & _ & Hs);
          [discriminate|].
        exists t. split; [exact Ht | exact (Hs Hfail)].
    + intros max [chunk|] loc.
      * destruct (loop_body_got self max chunk loc) as (b & t & _ & Hstep & _ & Hs).
        eexists _, t. split; [exact Hstep | exact (Hs Hfail)].
      * exists loc, []. split; reflexivity.
    + intros max items loc.
      destruct (while_listening_total self max items loc) as (loc' & t & Hrun & Hs).
      exists loc', t. split; [exact Hrun | exact (Hs Hfail)].
Qed.

End RecognitionFailure.

(** C4 at work on an engine whose model fails on the first utterance
    and answers on the second: both are handed over, the first gives no
    event, the second gives its text. *)
Lemma recognition_failure_silent_witness :
  events_of (P := Sample.platform) Trial.listening_flaky Trial.short_utterance = []
  /\ exists loc' t,
       while_listening (P := Sample.platform) 4
         (map Got (Trial.short_utterance ++ Trial.long_utterance))
         Locals_initial Trial.listening_flaky
       = (Returns loc', Trial.listening_flaky, t)
       /\ utterances t = [Trial.short_utterance; Trial.long_utterance]
       /\ speech_events t = ["hello"].
Proof.
  destruct (recognition_failure_silent (P := Sample.platform) Trial.listening_flaky)
    as (_ & Hbuffer & _ & Hrun & _).
  assert (Hfail : utterance_fails (P := Sample.platform) Trial.listening_flaky
                    Trial.short_utterance).
  { intros audio Hcat. injection Hcat as <-.
    exists (ExternalError "transient failure"). vm_compute. reflexivity. }
  destruct (Hbuffer Trial.short_utterance Hfail) as (_ & Hnone).
  split; [exact Hnone|].
  destruct (Hrun 4 (map Got (Trial.short_utterance ++ Trial.long_utterance))
              Locals_initial) as (loc' & t & Heq & Hs & Hu).
  exists loc', t. split; [exact Heq|].
  specialize (Hu eq_refl).
  assert (Hu' : utterances t = [Trial.short_utterance; Trial.long_utterance]).
  { rewrite Hu. vm_compute. reflexivity. }
  split; [exact Hu'|].
  rewrite Hs, Hu'. cbn [flat_map]. rewrite Hnone. vm_compute. reflexivity.
Defined.

Section Segmentation2.
Context {P : Platform}.

(** X7.  Whatever the device and the queue deliver, every utterance that
    [_recording_loop] brings to transcription begins with a chunk that
    [_is_speech] calls speech: a non-speech chunk that arrives while the
    buffer is empty is not appended, so silence before the first speech
    chunk never enters an utterance. *)
Theorem utterances_begin_with_speech (self : VoiceEngine)
    (InputStream : Z -> outcome unit) (items : list QueueGet) :
  Forall (fun u => exists c r, u = c :: r /\ verdict self c = true)
    (utterances (trace_of (_recording_loop InputStream items self))).
Proof.
  unfold _recording_loop. run_py.
  destruct (chunk_size_of (config self)) as [n|e]; [|constructor].
  destruct (max_silence_chunks_of (config self)) as [m|e]; [|constructor].
  cbn [app]. destruct (InputStream n) as [[]|e]; [|constructor].
  destruct (is_listening self) eqn:Hon.
  - destruct (while_listening_chunks self m Hon items Locals_initial)
      as (t & Hrun & Hu).
    rewrite Hrun. cbn [snd]. rewrite app_nil_r, Hu.
    apply (segment_headed (verdict self) m (chunks_of items) Locals_initial).
    exact I.
  - rewrite (while_not_listening self m items Locals_initial Hon). constructor.
Qed.

(** X8.  On a listening engine the loop loses no speech: the chunks
    classified as speech that it has handed over, followed by those in
    the buffer it ends with, are exactly the speech chunks the queue
    delivered, in the order of their arrival and each once. *)
Theorem speech_chunks_conserved (self : VoiceEngine) (max : Z)
    (items : list QueueGet) :
  is_listening self = true ->
  exists final t,
    while_listening max items Locals_initial self = (Returns final, self, t)
    /\ filter (verdict self) (List.concat (utterances t) ++ audio_buffer final)
       = filter (verdict self) (chunks_of items).
Proof.
  intros Hon.
  destruct (while_listening_chunks self max Hon items Locals_initial)
    as (t & Hrun & Hu).
  eexists _, t. split; [exact Hrun|]. rewrite Hu.
  apply (segment_keeps_speech (verdict self) max (chunks_of items) Locals_initial).
Qed.

(** X9.  Time-outs of the queue change nothing: a run of the loop is the
    run on the chunks alone, with the same locals at the end, the same
    engine and the same trace. *)
Theorem queue_timeouts_transparent (self : VoiceEngine) (max : Z)
    (items : list QueueGet) (loc : Locals) :
  while_listening max items loc self
  = while_listening max (map Got (chunks_of items)) loc self.
Proof.
  destruct (is_listening self) eqn:Hon.
  - revert loc. induction items as [|[chunk|] rest IH]; intros loc.
    + reflexivity.
    + change (chunks_of (Got chunk :: rest)) with (chunk :: chunks_of rest).
      cbn [map while_listening]. run_py. rewrite Hon.
      destruct (loop_body_got self max chunk loc) as (b & t1 & _ & Hstep & _).
      rewrite Hstep, IH. reflexivity.
    + change (chunks_of (QueueEmpty :: rest)) with (chunks_of rest).
      rewrite <- IH. cbn [while_listening loop_body]. run_py. rewrite Hon.
      destruct (while_listening max rest loc self) as [[r s] t]. reflexivity.
  - rewrite !while_not_listening by exact Hon. reflexivity.
Qed.

(** X10.  Silence that arrives while no utterance is open is dropped and
    leaves no mark: on a listening engine, a stream that begins with any
    number of non-speech chunks gives the same utterances and the same
    open buffer as the stream without them, although the loop has
    counted them. *)
Theorem leading_silence_dropped (self : VoiceEngine) (max : Z)
    (silent : list ndarray) (rest : list QueueGet) :
  is_listening self = true ->
  Forall (fun c => verdict self c = false) silent ->
  exists final final' t t',
    while_listening max (map Got silent ++ rest) Locals_initial self
    = (Returns final, self, t)
    /\ while_listening max rest Locals_initial self = (Returns final', self, t')
    /\ utterances t = utterances t'
    /\ audio_buffer final = audio_buffer final'.
Proof.
  intros Hon Hsilent.
  destruct (while_listening_chunks self max Hon (map Got silent ++ rest)
              Locals_initial) as (t & Hrun & Hu).
  destruct (while_listening_chunks self max Hon rest Locals_initial)
    as (t' & Hrun' & Hu').
  eexists _, _, t, t'. split; [exact Hrun|]. split; [exact Hrun'|].
  rewrite Hu, Hu', chunks_of_app, chunks_of_Got.
  unfold labelled. rewrite map_app.
  unfold Locals_initial.
  rewrite (segment_leading_silence (verdict self) max silent _ Hsilent 0).
  apply segment_idle_count.
Qed.

(** X11.  An utterance spans a pause shorter than the threshold and ends
    with the threshold's worth of silence.  On a listening engine with a
    threshold of [m >= 1] chunks: a run of speech chunks, a pause of
    fewer than [m] non-speech chunks, more speech (or no pause and no
    more speech), then [m] non-speech chunks give exactly one utterance,
    made of all these chunks in order, and leave the loop with an empty
    buffer and a silence count of zero. *)
Theorem pause_within_utterance (self : VoiceEngine) (m : Z)
    (speech pause speech' tail : list ndarray) :
  is_listening self = true ->
  speech <> [] ->
  Forall (fun c => verdict self c = true) speech ->
  Forall (fun c => verdict self c = false) pause ->
  Forall (fun c => verdict self c = true) speech' ->
  Forall (fun c => verdict self c = false) tail ->
  (speech' = [] -> pause = []) ->
  len pause < m ->
  len tail = m ->
  exists t,
    while_listening m (map Got (speech ++ pause ++ speech' ++ tail))
      Locals_initial self
    = (Returns Locals_initial, self, t)
    /\ utterances t = [speech ++ pause ++ speech' ++ tail].
Proof.
  intros Hon Hne Hsp Hpause Hsp' Htail Hshape Hshort Hlen.
  assert (Hm : 1 <= m).
  { destruct tail as [|c tail].
    - destruct pause; unfold len in *; cbn [List.length] in *; lia.
    - unfold len in Hlen. cbn [List.length] in Hlen. lia. }
  destruct (while_listening_chunks self m Hon
              (map Got (speech ++ pause ++ speech' ++ tail)) Locals_initial)
    as (t & Hrun & Hu).
  rewrite chunks_of_Got in Hrun, Hu.
  assert (Hseg : segment m (labelled self (speech ++ pause ++ speech' ++ tail))
                   Locals_initial
                 = ([speech ++ pause ++ speech' ++ tail], Locals_initial)).
  { unfold labelled. rewrite !map_app. unfold Locals_initial.
    rewrite (segment_speech_run (verdict self) m speech _ Hm Hsp).
    cbn [app].
    assert (Hmid :
      segment m
        (map (fun chunk => (verdict self chunk, chunk)) pause
         ++ map (fun chunk => (verdict self chunk, chunk)) speech'
         ++ map (fun chunk => (verdict self chunk, chunk)) tail)
        {| audio_buffer := speech;
           silence_chunks := match speech with [] => 0 | _ :: _ => 0 end |}
      = segment m (map (fun chunk => (verdict self chunk, chunk)) tail)
          {| audio_buffer := speech ++ pause ++ speech'; silence_chunks := 0 |}).
    { destruct speech' as [|c' speech'].
      - rewrite (Hshape eq_refl). cbn [map app]. rewrite !app_nil_r.
        destruct speech; reflexivity.
      - rewrite (segment_silence_run (verdict self) m pause _ Hpause);
          [|exact Hne | destruct speech; lia].
        rewrite (segment_speech_run (verdict self) m (c' :: speech') _ Hm Hsp').
        rewrite <- app_assoc. reflexivity. }
    rewrite Hmid.
    assert (Hbuf : speech ++ pause ++ speech' <> []).
    { destruct speech; [congruence | discriminate]. }
    replace (speech ++ pause ++ speech' ++ tail)
      with ((speech ++ pause ++ speech') ++ tail)
      by (rewrite <- !app_assoc; reflexivity).
    clear Hmid. revert Hbuf.
    generalize (speech ++ pause ++ speech'). intros buffer Hbuf.
    destruct (exists_last (l := tail)) as (front & c & ->).
    { intros ->. unfold len in Hlen. cbn [List.length] in Hlen. lia. }
    apply Forall_app in Htail. destruct Htail as [Hfront Hc].
    apply Forall_inv in Hc. rename Hc into Hc1.
    unfold len in Hlen. rewrite length_app in Hlen. cbn [List.length] in Hlen.
    rewrite map_app.
    rewrite (segment_silence_run (verdict self) m front _ Hfront buffer 0 Hbuf)
      by (unfold len; lia).
    rewrite <- (app_nil_r (map _ [c])).
    rewrite (segment_closing_silence (verdict self) _ c [] (buffer ++ front));
      [ cbn [segment fst snd]; rewrite <- app_assoc; reflexivity
      | exact Hc1
      | destruct buffer; [congruence | discriminate]
      | unfold len; lia ]. }
  rewrite Hseg in Hrun, Hu. exists t. split; [exact Hrun | exact Hu].
Qed.

End Segmentation2.

(** *** [str.strip] *)

Section Strip.

Lemma str_app_assoc (a b c : string) :
  String.append (String.append a b) c = String.append a (String.append b c).
Proof. induction a as [|x a IH]; cbn; [reflexivity | rewrite IH; reflexivity]. Qed.

Lemma str_app_nil_r (a : string) : String.append a "" = a.
Proof. induction a as [|x a IH]; cbn; [reflexivity | rewrite IH; reflexivity]. Qed.

Lemma rev_append_str_app (s acc : string) :
  rev_append_str s acc = String.append (rev_str s) acc.
Proof.
  unfold rev_str. revert acc. induction s as [|c s IH]; intros acc; cbn.
  - reflexivity.
  - rewrite (IH (String c acc)), (IH (String c "")), str_app_assoc. reflexivity.
Qed.

Lemma rev_str_cons (c : ascii) (s : string) :
  rev_str (String c s) = String.append (rev_str s) (String c "").
Proof. unfold rev_str at 1. cbn. apply rev_append_str_app. Qed.

Lemma rev_str_app (a b : string) :
  rev_str (String.append a b) = String.append (rev_str b) (rev_str a).
Proof.
  induction a as [|c a IH]; cbn [String.append].
  - cbn. rewrite str_app_nil_r. reflexivity.
  - rewrite !rev_str_cons, IH, str_app_assoc. reflexivity.
Qed.

Lemma rev_str_involutive (s : string) : rev_str (rev_str s) = s.
Proof.
  induction s as [|c s IH]; [reflexivity|].
  rewrite rev_str_cons, rev_str_app, IH. reflexivity.
Qed.

Section Tests.
Variable sp1 : ascii -> bool.
Variable sp2 : ascii -> ascii -> bool.
Variable sp3 : ascii -> ascii -> ascii -> bool.

Lemma lstrip_with_bounded (n : nat) :
  forall s,
    (String.length s <= n)%nat ->
    begins_with sp1 sp2 sp3 (lstrip_with sp1 sp2 sp3 s) = false
    /\ exists p, s = String.append p (lstrip_with sp1 sp2 sp3 s).
Proof.
  induction n as [|n IH]; intros s Hlen.
  - destruct s; [|cbn in Hlen; lia]. split; [reflexivity | exists ""; reflexivity].
  - destruct s as [|c1 r1]; [split; [reflexivity | exists ""; reflexivity]|].
    cbn [String.length] in Hlen. cbn [lstrip_with].
    destruct (sp1 c1) eqn:H1.
    { destruct (IH r1 ltac:(lia)) as (Hb & p & Hp). split; [exact Hb|].
      exists (String c1 p). cbn. rewrite <- Hp. reflexivity. }
    destruct r1 as [|c2 r2].
    { split; [cbn; rewrite H1; reflexivity | exists ""; reflexivity]. }
    cbn [String.length] in Hlen.
    destruct (sp2 c1 c2) eqn:H2.
    { destruct (IH r2 ltac:(lia)) as (Hb & p & Hp). split; [exact Hb|].
      exists (String c1 (String c2 p)). cbn. rewrite <- Hp. reflexivity. }
    destruct r2 as [|c3 r3].
    { split; [cbn; rewrite H1, H2; reflexivity | exists ""; reflexivity]. }
    cbn [String.length] in Hlen.
    destruct (sp3 c1 c2 c3) eqn:H3.
    { destruct (IH r3 ltac:(lia)) as (Hb & p & Hp). split; [exact Hb|].
      exists (String c1 (String c2 (String c3 p))). cbn. rewrite <- Hp.
      reflexivity. }
    split; [cbn; rewrite H1, H2, H3; reflexivity | exists ""; reflexivity].
Qed.

Lemma lstrip_with_clean (s : string) :
  begins_with sp1 sp2 sp3 (lstrip_with sp1 sp2 sp3 s) = false.
Proof. exact (proj1 (lstrip_with_bounded (String.length s) s (le_n _))). Qed.

Lemma lstrip_with_suffix (s : string) :
  exists p, s = String.append p (lstrip_with sp1 sp2 sp3 s).
Proof. exact (proj2 (lstrip_with_bounded (String.length s) s (le_n _))). Qed.

Lemma lstrip_with_fixed (s : string) :
  begins_with sp1 sp2 sp3 s = false -> lstrip_with sp1 sp2 sp3 s = s.
Proof.
  destruct s as [|c1 [|c2 [|c3 r3]]]; cbn [begins_with lstrip_with]; intros H;
    repeat (apply orb_false_elim in H; destruct H as [? H]);
    repeat match goal with
           | Heq : _ = false |- _ => rewrite Heq; clear Heq
           end;
    try rewrite H; reflexivity.
Qed.

Lemma begins_with_prefix (r x : string) :
  begins_with sp1 sp2 sp3 (String.append r x) = false ->
  begins_with sp1 sp2 sp3 r = false.
Proof.
  destruct r as [|c1 [|c2 [|c3 r3]]]; cbn [begins_with String.append]; intros H;
    try reflexivity;
    repeat (apply orb_false_elim in H; destruct H as [? H]);
    repeat match goal with
           | Heq : _ = false |- _ => rewrite Heq; clear Heq
           end;
    try rewrite H; reflexivity.
Qed.

End Tests.

Lemma strip_trimmed (s : string) : trimmed (strip s).
Proof.
  unfold trimmed, begins_with_space, ends_with_space, strip, lstrip, lstrip_reversed.
  split.
  - destruct (lstrip_with_suffix is_space (fun c2 c1 => is_space2 c1 c2)
                (fun c3 c2 c1 => is_space3 c1 c2 c3)
                (rev_str (lstrip_with is_space is_space2 is_space3 s)))
      as [p Hp].
    apply (f_equal rev_str) in Hp.
    rewrite rev_str_involutive, rev_str_app in Hp.
    apply (begins_with_prefix _ _ _ _ (rev_str p)).
    rewrite <- Hp. apply lstrip_with_clean.
  - rewrite rev_str_involutive. apply lstrip_with_clean.
Qed.

Lemma trimmed_strip (s : string) : trimmed s -> strip s = s.
Proof.
  unfold trimmed, begins_with_space, ends_with_space, strip, lstrip, lstrip_reversed.
  intros [Hfirst Hlast].
  rewrite (lstrip_with_fixed _ _ _ s Hfirst),
    (lstrip_with_fixed _ _ _ (rev_str s) Hlast).
  apply rev_str_involutive.
Qed.

Lemma strip_idempotent (s : string) : strip (strip s) = strip s.
Proof. apply trimmed_strip, strip_trimmed. Qed.

Lemma truthy_str_nonempty (s : string) : truthy_str s = true -> s <> "".
Proof. destruct s; [discriminate | discriminate]. Qed.

End Strip.

Section Recognition.
Context {P : Platform}.

Lemma speech_events_length_app (t1 t2 : list Effect) :
  List.length (speech_events (t1 ++ t2))
  = (List.length (speech_events t1) + List.length (speech_events t2))%nat.
Proof. rewrite speech_events_app, length_app. reflexivity. Qed.

(** X12.  What [_process_audio_buffer] delivers.  When the chunks
    concatenate, the model returns its segments and a speech callback is
    registered, the callback is called exactly when the segments, joined
    by single spaces and stripped, leave a non-empty text, and it gets
    that text: a transcription of whitespace alone produces no event.
    The call returns normally even if the callback raises. *)
Theorem speech_event_is_stripped_text (self : VoiceEngine)
    (buffer : list ndarray) (audio : ndarray) (model : Whisper)
    (segments : list string) (cb : string -> outcome unit) :
  buffer <> [] ->
  concatenate buffer = Returns audio ->
  whisper_model self = Some model ->
  model (as_float32 audio) = Returns segments ->
  on_speech_detected self = Some cb ->
  let text := strip (join " " segments) in
  result_of (_process_audio_buffer buffer self) = Returns tt
  /\ state_of (_process_audio_buffer buffer self) = self
  /\ speech_events (trace_of (_process_audio_buffer buffer self))
     = (if truthy_str text then [text] else []).
Proof.
  intros Hne Hcat Hmodel Hsegs Hcb. cbv zeta.
  destruct buffer as [|c rest]; [congruence|].
  unfold _process_audio_buffer, _transcribe_audio. cbn [truthy_list negb]. run_py.
  rewrite Hcat, Hmodel, Hsegs. cbn [app].
  set (text := strip (join " " segments)).
  assert (Hidem : strip text = text) by apply strip_idempotent.
  clearbody text. rewrite !Hidem, Hcb.
  destruct (truthy_str text); cbn [andb];
    [destruct (cb text) as [[]|e]|]; repeat split; reflexivity.
Qed.

(** One buffer gives at most one speech event, whose text is not empty
    and has no whitespace at either end. *)
Lemma process_buffer_events (self : VoiceEngine) (buffer : list ndarray) :
  exists t,
    _process_audio_buffer buffer self = (Returns tt, self, t)
    /\ (List.length (speech_events t) <= List.length (utterances t))%nat
    /\ Forall (fun text => text <> "" /\ trimmed text) (speech_events t).
Proof.
  destruct buffer as [|c rest].
  - exists []. repeat split; constructor.
  - unfold _process_audio_buffer. cbn [truthy_list negb]. run_py.
    destruct (concatenate (c :: rest)) as [audio|e].
    + destruct (transcribe_total self audio) as (text & t & Ht & Hu & Hs & _).
      rewrite Ht.
      destruct (truthy_str text && truthy_str (strip text)) eqn:Htext.
      * apply andb_prop in Htext. destruct Htext as [_ Hstripped].
        destruct (on_speech_detected self) as [cb|].
        -- destruct (cb (strip text)) as [[]|e];
             (eexists; split; [reflexivity|]; split;
              [ split_trace; rewrite Hu, Hs; cbn; lia
              | split_trace; rewrite Hs; cbn [app]; repeat constructor;
                [ apply truthy_str_nonempty, Hstripped
                | apply strip_trimmed | apply strip_trimmed ] ]).
        -- eexists; split; [reflexivity|]; split.
           ++ split_trace. rewrite Hu, Hs. cbn. lia.
           ++ split_trace. rewrite Hs. constructor.
      * eexists; split; [reflexivity|]; split.
        -- split_trace. rewrite Hu, Hs. cbn. lia.
        -- split_trace. rewrite Hs. constructor.
    + eexists; split; [reflexivity|]; split; [cbn; lia | constructor].
Qed.

Lemma loop_body_events (self : VoiceEngine) (max : Z) (item : QueueGet)
    (loc : Locals) :
  exists loc' t,
    loop_body max item loc self = (Returns (Continue loc'), self, t)
    /\ (List.length (speech_events t) <= List.length (utterances t))%nat
    /\ Forall (fun text => text <> "" /\ trimmed text) (speech_events t).
Proof.
  destruct item as [chunk|]; [|exists loc, []; repeat split; constructor].
  destruct (is_speech_total self (pcm16_bytes chunk)) as (b & t0 & Hb & Hu0 & Hs0).
  unfold loop_body. run_py. rewrite Hb. cbn [fst snd].
  match goal with
  | |- context [if ?cond then _ else _] =>
      match cond with
      | (truthy_list _ && _)%bool => destruct cond
      end
  end.
  - match goal with
    | |- context [_process_audio_buffer ?u self] =>
        destruct (process_buffer_events self u) as (t & Ht & Hlen & Hgood)
    end.
    rewrite Ht. eexists _, _. split; [reflexivity|]. split.
    + split_trace. rewrite Hs0, Hu0. cbn [app List.length]. rewrite app_nil_r.
      rewrite (app_nil_r (utterances t)). exact Hlen.
    + split_trace. rewrite Hs0. cbn [app]. rewrite app_nil_r. exact Hgood.
  - eexists _, _. split; [reflexivity|]. split.
    + split_trace. rewrite Hs0, Hu0. cbn. lia.
    + split_trace. rewrite Hs0. constructor.
Qed.

Lemma while_listening_events (self : VoiceEngine) (max : Z)
    (items : list QueueGet) :
  forall loc,
    exists loc' t,
      while_listening max items loc self = (Returns loc', self, t)
      /\ (List.length (speech_events t) <= List.length (utterances t))%nat
      /\ Forall (fun text => text <> "" /\ trimmed text) (speech_events t).
Proof.
  induction items as [|item rest IH]; intros loc.
  - exists loc, []. repeat split; constructor.
  - cbn [while_listening]. run_py.
    destruct (is_listening self); [|exists loc, []; repeat split; constructor].
    destruct (loop_body_events self max item loc) as (loc1 & t1 & Hstep & Hlen1 & Hgood1).
    rewrite Hstep.
    destruct (IH loc1) as (loc' & t2 & Hrest & Hlen2 & Hgood2).
    rewrite Hrest. exists loc'. eexists. split; [reflexivity|]. split.
    + rewrite speech_events_app, utterances_app, !length_app. lia.
    + rewrite speech_events_app. apply Forall_app. split; assumption.
Qed.

(** X13.  Over a whole run of [_recording_loop], whatever the device,
    the classifier, the model and the callback do: there are never more
    speech events than buffers handed to transcription, and no speech
    event carries an empty text or a text with whitespace at either
    end. *)
Theorem speech_events_bounded_and_trimmed (self : VoiceEngine)
    (InputStream : Z -> outcome unit) (items : list QueueGet) :
  let t := trace_of (_recording_loop InputStream items self) in
  (List.length (speech_events t) <= List.length (utterances t))%nat
  /\ Forall (fun text => text <> "" /\ trimmed text) (speech_events t).
Proof.
  unfold _recording_loop. run_py.
  destruct (chunk_size_of (config self)) as [n|e];
    [|split; [cbn; lia | constructor]].
  destruct (max_silence_chunks_of (config self)) as [m|e];
    [|split; [cbn; lia | constructor]].
  cbn [app]. destruct (InputStream n) as [[]|e];
    [|split; [cbn; lia | constructor]].
  destruct (while_listening_events self m items Locals_initial)
    as (loc' & t & Hrun & Hlen & Hgood).
  rewrite Hrun. cbn [snd]. rewrite app_nil_r. split; assumption.
Qed.

(** X14.  [transcribe_file] never raises and never changes the engine,
    and what it returns has no whitespace at either end.  Without a
    model it logs an error and returns the empty string, whatever the
    file; when the model raises it logs and returns the empty string;
    otherwise it returns the segments joined by single spaces and
    stripped. *)
Theorem transcribe_file_total (self : VoiceEngine)
    (transcribe_path : string -> outcome (list string)) (path : string) :
  exists text t,
    transcribe_file transcribe_path path self = (Returns text, self, t)
    /\ trimmed text
    /\ (whisper_model self = None ->
        text = "" /\ t = [Log Error "Whisper model not available"])
    /\ (forall e,
          whisper_model self <> None -> transcribe_path path = Raises e ->
          text = "" /\ t = [Log Error "File transcription error"])
    /\ (forall segments,
          whisper_model self <> None -> transcribe_path path = Returns segments ->
          text = strip (join " " segments) /\ t = []).
Proof.
  assert (Hempty : trimmed "") by (split; reflexivity).
  unfold transcribe_file. run_py.
  destruct (whisper_model self) as [model|].
  - destruct (transcribe_path path) as [segments|e].
    + eexists _, _. split; [reflexivity|]. split; [apply strip_trimmed|].
      split; [discriminate|]. split; [discriminate|].
      intros segs _ Heq. injection Heq as <-. split; reflexivity.
    + eexists _, _. split; [reflexivity|]. split; [exact Hempty|].
      split; [discriminate|]. split; [|discriminate].
      intros e' _ _. split; reflexivity.
  - eexists _, _. split; [reflexivity|]. split; [exact Hempty|].
    split; [split; reflexivity|]. split; intros ? Hm; congruence.
Qed.

End Recognition.

Section Synthesis.
Context {P : Platform}.

(** X15.  Until an API key has been set with success, or when the
    elevenlabs package is missing, [text_to_speech] is inert: every call
    returns [None] with one error logged, the synthesis engine is never
    called and nothing is cached, however many calls are made. *)
Theorem tts_unavailable_inert (self : VoiceEngine) :
  elevenlabs_configured self = false \/ have_elevenlabs = false ->
  (forall generate text voice_id,
     text_to_speech generate text voice_id self
     = (Returns None, self, [Log Error "Eleven Labs not configured or available"]))
  /\ (forall calls, run_calls calls self = self).
Proof.
  intros Hoff.
  assert (Hav : negb (elevenlabs_configured self) || negb have_elevenlabs = true).
  { destruct Hoff as [-> | ->]; [reflexivity | apply orb_true_r]. }
  assert (Hcall : forall generate text voice_id,
            text_to_speech generate text voice_id self
            = (Returns None, self,
               [Log Error "Eleven Labs not configured or available"])).
  { intros. apply tts_not_available, Hav. }
  split; [exact Hcall|].
  induction calls as [|c rest IH]; [reflexivity|].
  cbn [run_calls]. unfold run_call. rewrite Hcall. exact IH.
Qed.

(** X16.  [set_elevenlabs_api_key] returns [True] exactly when the
    package is there and [set_api_key] does not raise.  It can only
    switch the engine to configured: a failed attempt leaves an earlier
    configuration in force.  In both cases the cache is kept, so audio
    synthesized under an earlier key is still served. *)
Theorem api_key_only_enables (self : VoiceEngine)
    (set_api_key : string -> outcome unit) (api_key : string) :
  let ok := have_elevenlabs
            && match set_api_key api_key with
               | Returns _ => true
               | Raises _ => false
               end in
  result_of (set_elevenlabs_api_key set_api_key api_key self) = Returns ok
  /\ state_of (set_elevenlabs_api_key set_api_key api_key self)
     = (if ok then set_elevenlabs_configured true self else self)
  /\ elevenlabs_configured
       (state_of (set_elevenlabs_api_key set_api_key api_key self))
     = elevenlabs_configured self || ok
  /\ tts_cache (state_of (set_elevenlabs_api_key set_api_key api_key self))
     = tts_cache self.
Proof.
  unfold set_elevenlabs_api_key. run_py.
  destruct have_elevenlabs; cbn [negb andb].
  - destruct (set_api_key api_key) as [[]|e]; cbn.
    + rewrite orb_true_r. repeat split; reflexivity.
    + rewrite orb_false_r. repeat split; reflexivity.
  - cbn. rewrite orb_false_r. repeat split; reflexivity.
Qed.

(** What a call that returned audio leaves in the cache. *)
Lemma tts_result_cached (self self' : VoiceEngine) (generate : Generate)
    (text : string) (voice_id : option string) (audio : bytes) (t : list Effect) :
  text_to_speech generate text voice_id self = (Returns (Some audio), self', t) ->
  elevenlabs_configured self' = true
  /\ have_elevenlabs = true
  /\ config self' = config self
  /\ dict_get (cache_key (str_or voice_id (elevenlabs_voice_id (config self))) text)
       (tts_cache self') = Some audio.
Proof.
  intros Hfirst.
  destruct (negb (elevenlabs_configured self) || negb have_elevenlabs) eqn:Hav.
  { rewrite (tts_not_available self generate text voice_id Hav) in Hfirst.
    discriminate Hfirst. }
  apply orb_false_elim in Hav. destruct Hav as [Hconf Hhave].
  apply negb_false_iff in Hconf. apply negb_false_iff in Hhave.
  destruct (dict_mem (cache_key (str_or voice_id (elevenlabs_voice_id (config self)))
                        text) (tts_cache self)) eqn:Hmem.
  - destruct (dict_mem_get _ _ Hmem) as [a Hget].
    rewrite (tts_hit self generate text voice_id a Hconf Hhave Hget) in Hfirst.
    injection Hfirst as <- <- <-. auto.
  - destruct (generate text (str_or voice_id (elevenlabs_voice_id (config self)))
                (elevenlabs_stability (config self))
                (elevenlabs_clarity (config self))
                (elevenlabs_style (config self))) as [a|e] eqn:Hgen.
    + rewrite (tts_miss_success self generate text voice_id a
                 Hconf Hhave Hmem Hgen) in Hfirst.
      injection Hfirst as <- <- <-.
      repeat split; try assumption; try reflexivity.
      cbn [tts_cache set_tts_cache]. cbv zeta.
      apply dict_get_after_insert. exact Hmem.
    + rewrite (tts_miss_failure self generate text voice_id e
                 Hconf Hhave Hmem Hgen) in Hfirst.
      discriminate Hfirst.
Qed.

(** X17.  The cache tells texts apart by [hash(text)] only.  After a
    call that returned audio for one text, a call for another text with
    the same hash and the same voice is a hit: it returns the audio of
    the first text without calling the synthesis engine. *)
Theorem hash_collision_shares_entry (self self' : VoiceEngine)
    (generate : Generate) (text text' : string) (voice_id : option string)
    (audio : bytes) (t : list Effect) :
  hash text' = hash text ->
  text_to_speech generate text voice_id self = (Returns (Some audio), self', t) ->
  forall generate' : Generate,
    text_to_speech generate' text' voice_id self' = (Returns (Some audio), self', []).
Proof.
  intros Hhash Hfirst generate'.
  destruct (tts_result_cached _ _ _ _ _ _ _ Hfirst) as (Hconf & Hhave & Hcfg & Hget).
  apply tts_hit; [exact Hconf | exact Hhave |].
  rewrite Hcfg. unfold cache_key in *. rewrite Hhash. exact Hget.
Qed.

Lemma lacks_colon_uint (d : Decimal.uint) :
  lacks ":" (NilEmpty.string_of_uint d) = true.
Proof. induction d; cbn; auto. Qed.

Lemma lacks_colon_int (n : Z) : lacks ":" (str_of_int n) = true.
Proof.
  unfold str_of_int, NilZero.string_of_int, NilZero.string_of_uint.
  destruct (Z.to_int n) as [d|d]; destruct d; cbn; auto using lacks_colon_uint.
Qed.

Lemma str_of_int_inj (a b : Z) : str_of_int a = str_of_int b -> a = b.
Proof.
  assert (Hnz : forall n, Z.to_int n <> Decimal.Pos Decimal.Nil
                          /\ Z.to_int n <> Decimal.Neg Decimal.Nil).
  { intros [|p|p]; cbn; split; try discriminate;
      intros H; injection H as H; exact (DecimalPos.Unsigned.to_uint_nonnil p H). }
  unfold str_of_int. intros H.
  apply DecimalZ.to_int_inj.
  assert (Ha := NilZero.isi (Z.to_int a) (proj1 (Hnz a)) (proj2 (Hnz a))).
  assert (Hb := NilZero.isi (Z.to_int b) (proj1 (Hnz b)) (proj2 (Hnz b))).
  rewrite H in Ha. congruence.
Qed.

Lemma split_at_last_colon (v1 v2 s1 s2 : string) :
  lacks ":" s1 = true -> lacks ":" s2 = true ->
  String.append v1 (String ":" s1) = String.append v2 (String ":" s2) ->
  v1 = v2 /\ s1 = s2.
Proof.
  intros H1 H2. revert v2.
  assert (Hno : forall s v r, lacks ":" s = true ->
                  s <> String.append v (String ":" r)).
  { intros s v. revert s. induction v as [|c v IH]; intros s r Hs Heq; subst s.
    - cbn in Hs. discriminate Hs.
    - cbn in Hs. apply andb_prop in Hs. destruct Hs as [_ Hs].
      exact (IH _ r Hs eq_refl). }
  induction v1 as [|c v1 IH]; intros [|c2 v2] Heq; cbn in Heq.
  - injection Heq as ->. split; reflexivity.
  - injection Heq as <- Heq. exfalso. exact (Hno s1 v2 s2 H1 Heq).
  - injection Heq as -> Heq. exfalso. exact (Hno s2 v1 s1 H2 (eq_sym Heq)).
  - injection Heq as -> Heq. destruct (IH v2 Heq) as [-> ->]. split; reflexivity.
Qed.

(** X18.  Two requests share a cache key exactly when their voice
    identifiers are equal and their texts have the same hash: whatever
    characters a voice identifier holds, colons included, audio of one
    voice is never served for another. *)
Theorem cache_key_injective (voice_id voice_id' text text' : string) :
  cache_key voice_id text = cache_key voice_id' text'
  <-> voice_id = voice_id' /\ hash text = hash text'.
Proof.
  unfold cache_key. split.
  - intros Heq. cbn [String.append] in Heq.
    destruct (split_at_last_colon _ _ _ _ (lacks_colon_int _) (lacks_colon_int _) Heq)
      as [Hv Hs].
    split; [exact Hv | exact (str_of_int_inj _ _ Hs)].
  - intros [-> ->]. reflexivity.
Qed.

(** A successful miss on a cache of exactly 50 entries. *)
Lemma eviction_at_capacity (self : VoiceEngine) (generate : Generate)
    (text : string) (voice_id : option string) (audio : bytes) :
  elevenlabs_configured self = true ->
  have_elevenlabs = true ->
  len (tts_cache self) = 50 ->
  dict_mem (cache_key (str_or voice_id (elevenlabs_voice_id (config self))) text)
    (tts_cache self) = false ->
  generate text (str_or voice_id (elevenlabs_voice_id (config self)))
    (elevenlabs_stability (config self)) (elevenlabs_clarity (config self))
    (elevenlabs_style (config self)) = Returns audio ->
  text_to_speech generate text voice_id self
  = (Returns (Some audio),
     set_tts_cache
       (skipn 10 (tts_cache self)
        ++ [(cache_key (str_or voice_id (elevenlabs_voice_id (config self))) text,
             audio)])
       self,
     [Synthesize text (str_or voice_id (elevenlabs_voice_id (config self)))]).
Proof.
  intros Hconf Hhave Hfull Hmiss Hgen.
  rewrite (tts_miss_success self generate text voice_id audio Hconf Hhave Hmiss Hgen).
  cbv zeta. rewrite len_snoc, Hfull. cbn [Z.add Z.ltb Z.compare Pos.add Pos.succ Pos.compare Pos.compare_cont].
  rewrite skipn_app. unfold len in Hfull.
  replace (10 - List.length (tts_cache self))%nat with 0%nat by lia.
  rewrite skipn_O. reflexivity.
Qed.

(** X19.  Eviction is decided when the cache already holds 50 entries
    and a new key is synthesized: the 10 entries inserted first go, the
    other 40 keep their order, and the new entry comes last, which makes
    41.  Below 50 entries the new entry is appended and nothing goes. *)
Theorem eviction_exactly_at_capacity (self : VoiceEngine) (generate : Generate)
    (text : string) (voice_id : option string) (audio : bytes) :
  elevenlabs_configured self = true ->
  have_elevenlabs = true ->
  dict_mem (cache_key (str_or voice_id (elevenlabs_voice_id (config self))) text)
    (tts_cache self) = false ->
  generate text (str_or voice_id (elevenlabs_voice_id (config self)))
    (elevenlabs_stability (config self)) (elevenlabs_clarity (config self))
    (elevenlabs_style (config self)) = Returns audio ->
  let entry := (cache_key (str_or voice_id (elevenlabs_voice_id (config self))) text,
                audio) in
  let after := tts_cache (state_of (text_to_speech generate text voice_id self)) in
  (len (tts_cache self) = 50 ->
   after = skipn 10 (tts_cache self) ++ [entry] /\ len after = 41)
  /\ (len (tts_cache self) < 50 -> after = tts_cache self ++ [entry]).
Proof.
  intros Hconf Hhave Hmiss Hgen entry after. split.
  - intros Hfull. unfold after.
    rewrite (eviction_at_capacity self generate text voice_id audio
               Hconf Hhave Hfull Hmiss Hgen).
    cbn [state_of fst snd tts_cache set_tts_cache]. split; [reflexivity|].
    rewrite len_snoc. unfold len in *. rewrite length_skipn. lia.
  - intros Hroom. unfold after.
    rewrite (tts_miss_success self generate text voice_id audio Hconf Hhave Hmiss Hgen).
    cbn [state_of fst snd tts_cache set_tts_cache]. cbv zeta.
    rewrite len_snoc.
    destruct (Z.ltb_spec 50 (len (tts_cache self) + 1)); [lia | reflexivity].
Qed.

(** X20.  Eviction goes by insertion, not by use.  On a full cache, a
    hit on one of the 10 oldest keys changes nothing, so the next new
    key evicts that entry all the same, and the call after that for the
    text just served from the cache goes to the synthesis engine
    again. *)
Theorem hit_does_not_refresh (self : VoiceEngine) (old new : TtsCall) :
  elevenlabs_configured self = true ->
  have_elevenlabs = true ->
  NoDup (dict_keys (tts_cache self)) ->
  len (tts_cache self) = 50 ->
  In (call_key self old) (firstn 10 (dict_keys (tts_cache self))) ->
  ~ In (call_key self new) (dict_keys (tts_cache self)) ->
  call_succeeds self new ->
  run_call old self = self
  /\ synthesis_calls
       (trace_of (text_to_speech (call_generate old) (call_text old)
                    (call_voice old) self)) = []
  /\ dict_mem (call_key self old) (tts_cache (run_calls [old; new] self)) = false
  /\ synthesis_calls
       (trace_of (text_to_speech (call_generate old) (call_text old)
                    (call_voice old) (run_calls [old; new] self)))
     = [(call_text old, str_or (call_voice old) (elevenlabs_voice_id (config self)))].
Proof.
  intros Hconf Hhave Hnd Hfull Hold Hnew [audio Hans].
  assert (Hin : In (call_key self old) (dict_keys (tts_cache self))).
  { rewrite <- (firstn_skipn 10 (dict_keys (tts_cache self))).
    apply in_or_app. left. exact Hold. }
  destruct (dict_mem_get _ _ (proj2 (dict_mem_keys _ _) Hin)) as [a Hget].
  pose proof (tts_hit self (call_generate old) (call_text old) (call_voice old) a
                Hconf Hhave Hget) as Hhit.
  assert (Hsame : run_call old self = self).
  { unfold run_call. rewrite Hhit. reflexivity. }
  split; [exact Hsame|]. split; [rewrite Hhit; reflexivity|].
  assert (Hstep : run_calls [old; new] self
                  = set_tts_cache
                      (skipn 10 (tts_cache self) ++ [(call_key self new, audio)])
                      self).
  { cbn [run_calls]. rewrite Hsame. unfold run_call.
    rewrite (eviction_at_capacity self _ _ _ audio Hconf Hhave Hfull
               (dict_mem_fresh _ _ Hnew) Hans).
    reflexivity. }
  assert (Hgone : dict_mem (call_key self old)
                    (skipn 10 (tts_cache self) ++ [(call_key self new, audio)])
                  = false).
  { apply dict_mem_fresh. unfold dict_keys in *. rewrite map_app, <- skipn_map.
    cbn [map fst]. intros Hin'. apply in_app_or in Hin'.
    destruct Hin' as [Hin'|[Heq|[]]].
    - rewrite <- (firstn_skipn 10 (map fst (tts_cache self))) in Hnd.
      exact (NoDup_app_disjoint _ _ _ Hnd Hold Hin').
    - apply Hnew. rewrite Heq. exact Hin. }
  rewrite Hstep. cbn [tts_cache set_tts_cache]. split; [exact Hgone|].
  set (self' := set_tts_cache
                  (skipn 10 (tts_cache self) ++ [(call_key self new, audio)]) self).
  destruct (call_generate old (call_text old)
              (str_or (call_voice old) (elevenlabs_voice_id (config self')))
              (elevenlabs_stability (config self'))
              (elevenlabs_clarity (config self'))
              (elevenlabs_style (config self'))) as [a'|e'] eqn:Hgen.
  - rewrite (tts_miss_success self' _ _ _ a' Hconf Hhave Hgone Hgen). reflexivity.
  - rewrite (tts_miss_failure self' _ _ _ e' Hconf Hhave Hgone Hgen). reflexivity.
Qed.

End Synthesis.

Section DictUpdate.
Context {V : Type}.
Implicit Types (d : dict V) (k : string) (v : V).

Lemma dict_get_set d k k' v :
  dict_get k (dict_set k' v d)
  = if String.eqb k k' then Some v else dict_get k d.
Proof.
  induction d as [|[k0 v0] d IH]; cbn [dict_set dict_get].
  - destruct (String.eqb k k'); reflexivity.
  - destruct (String.eqb_spec k' k0) as [->|Hne]; cbn [dict_get].
    + destruct (String.eqb k k0); reflexivity.
    + destruct (String.eqb_spec k k0) as [->|Hne'].
      * destruct (String.eqb_spec k0 k'); [congruence | reflexivity].
      * exact IH.
Qed.

Lemma dict_keys_set d k v :
  dict_keys (dict_set k v d)
  = if dict_mem k d then dict_keys d else dict_keys d ++ [k].
Proof.
  induction d as [|[k0 v0] d IH]; cbn [dict_set dict_mem dict_keys map fst app].
  - reflexivity.
  - destruct (String.eqb k k0); cbn [map fst]; [reflexivity|].
    fold (dict_keys (dict_set k v d)). rewrite IH.
    destruct (dict_mem k d); reflexivity.
Qed.

Lemma dict_set_NoDup d k v : NoDup (dict_keys d) -> NoDup (dict_keys (dict_set k v d)).
Proof.
  intros Hnd. rewrite dict_keys_set.
  destruct (dict_mem k d) eqn:Hmem; [exact Hnd|].
  apply NoDup_app; [exact Hnd | repeat constructor; intros [] |].
  intros a Ha [<-|[]].
  apply dict_mem_keys in Ha. congruence.
Qed.

End DictUpdate.

Section Voices.
Context {P : Platform}.

Lemma voices_fold_get (voice_list : list (string * string)) :
  forall (d : dict string) (id : string),
    dict_get id
      (fold_left (fun d voice => dict_set (fst voice) (snd voice) d) voice_list d)
    = match last_name id voice_list with
      | Some name => Some name
      | None => dict_get id d
      end.
Proof.
  induction voice_list as [|[id' name] rest IH]; intros d id; [reflexivity|].
  cbn [fold_left fst snd last_name]. rewrite IH, dict_get_set.
  destruct (last_name id rest); [reflexivity|].
  destruct (String.eqb id id'); reflexivity.
Qed.

Lemma voices_fold_NoDup (voice_list : list (string * string)) :
  forall d : dict string,
    NoDup (dict_keys d) ->
    NoDup (dict_keys
             (fold_left (fun d voice => dict_set (fst voice) (snd voice) d)
                voice_list d)).
Proof.
  induction voice_list as [|[id' name] rest IH]; intros d Hnd; [exact Hnd|].
  cbn [fold_left fst snd]. apply IH, dict_set_NoDup, Hnd.
Qed.

(** X21.  [get_available_voices] never raises and never changes the
    engine.  On an engine that is not configured it returns the empty
    dict whatever the voice service would answer; when the service
    raises it logs and returns the empty dict; otherwise each voice
    identifier is listed once, and looked up it gives the name of the
    last voice that carries it. *)
Theorem voices_listing (self : VoiceEngine)
    (voices : outcome (list (string * string))) :
  exists d t,
    get_available_voices voices self = (Returns d, self, t)
    /\ NoDup (dict_keys d)
    /\ (elevenlabs_configured self = false \/ have_elevenlabs = false ->
        d = [] /\ t = [])
    /\ (forall e,
          elevenlabs_configured self = true -> have_elevenlabs = true ->
          voices = Raises e ->
          d = [] /\ t = [Log Error "Error fetching voices"])
    /\ (forall voice_list,
          elevenlabs_configured self = true -> have_elevenlabs = true ->
          voices = Returns voice_list ->
          t = [] /\ forall id, dict_get id d = last_name id voice_list).
Proof.
  unfold get_available_voices. run_py.
  destruct (elevenlabs_configured self); cbn [negb orb].
  - destruct have_elevenlabs; cbn [negb].
    + destruct voices as [voice_list|e].
      * eexists _, _. split; [reflexivity|]. split.
        { apply voices_fold_NoDup. constructor. }
        split; [intros [H|H]; discriminate H|].
        split; [intros e _ _ H; discriminate H|].
        intros l _ _ Heq. injection Heq as <-. split; [reflexivity|].
        intros id. rewrite voices_fold_get. destruct (last_name id voice_list);
          reflexivity.
      * eexists _, _. split; [reflexivity|]. split; [constructor|].
        split; [intros [H|H]; discriminate H|].
        split; [intros e' _ _ _; split; reflexivity|].
        intros l _ _ H. discriminate H.
    + eexists _, _. split; [reflexivity|]. split; [constructor|].
      split; [intros _; split; reflexivity|].
      split; [intros e _ H; discriminate H | intros l _ H; discriminate H].
  - eexists _, _. split; [reflexivity|]. split; [constructor|].
    split; [intros _; split; reflexivity|].
    split; [intros e H; discriminate H | intros l H; discriminate H].
Qed.

(** X22.  [play_audio] never raises and never changes the engine.  Once
    the temporary file exists, it is removed only at the very end: it is
    removed when writing, flushing, reading, playing, waiting and
    unlinking all go through, and in every other case the file is left
    behind, with the error logged. *)
Theorem play_audio_temp_file (self : VoiceEngine) (dev : Playback)
    (audio_data : bytes) :
  result_of (play_audio dev audio_data self) = Returns tt
  /\ state_of (play_audio dev audio_data self) = self
  /\ (have_audio = false ->
      trace_of (play_audio dev audio_data self)
      = [PlayLog Error "sounddevice or numpy not available"])
  /\ (forall name,
        have_audio = true ->
        NamedTemporaryFile dev = Returns name ->
        files_created (trace_of (play_audio dev audio_data self)) = [name]
        /\ (playback_succeeds dev name audio_data ->
            files_removed (trace_of (play_audio dev audio_data self)) = [name])
        /\ (~ playback_succeeds dev name audio_data ->
            files_removed (trace_of (play_audio dev audio_data self)) = []
            /\ In (PlayLog Error "Audio playback error")
                 (trace_of (play_audio dev audio_data self)))).
Proof.
  unfold play_audio, playback_succeeds, finally_. run_py.
  destruct have_audio; cbn [negb].
  - destruct (NamedTemporaryFile dev) as [name|e0].
    + destruct (tmp_write dev name audio_data) as [[]|e1] eqn:Hw;
      destruct (tmp_flush dev name) as [[]|e2] eqn:Hf;
      destruct (sd_read dev name) as [[data fs]|e3] eqn:Hr;
      cbn [fst snd app];
      try destruct (sd_play dev data fs) as [[]|e4] eqn:Hp;
      destruct (sd_wait dev) as [[]|e5] eqn:Hwt;
      destruct (os_unlink dev name) as [[]|e6] eqn:Hu;
      destruct (tmp_close dev name) as [[]|e7];
      cbn [fst snd app];
      (split; [reflexivity|]; split; [reflexivity|]; split; [discriminate|];
       intros name' _ Hname; injection Hname as <-;
       split; [reflexivity|]; split;
       [ intros (H1 & H2 & (d' & f' & H3 & H4) & H5 & H6);
         try discriminate; try congruence; try reflexivity
       | intros Hnot; try (split; [reflexivity | cbn; tauto]);
         exfalso; apply Hnot; repeat split; eauto ]).
    + split; [reflexivity|]. split; [reflexivity|]. split; [discriminate|].
      intros name _ H. discriminate H.
  - split; [reflexivity|]. split; [reflexivity|]. split; [reflexivity|].
    intros name H. discriminate H.
Qed.

End Voices.

(** *** The properties at work on the sample process *)

(** X1 at work: the Whisper constructor raises. *)
Lemma init_components_coupled_witness :
  __init__ (P := Sample.platform) None
    (fun _ => Raises (ExternalError "model not found"))
    (fun _ => Returns Sample.shape_checking_vad)
  = (Returns tt, VoiceEngine_fresh None,
     [Log Info "Loading Whisper model";
      Log Error "Error initializing voice components"]).
Proof.
  destruct (init_components_coupled (P := Sample.platform) None
              (fun _ => Raises (ExternalError "model not found"))
              (fun _ => Returns Sample.shape_checking_vad)) as (Hraise & _ & _).
  apply (Hraise (ExternalError "model not found")); reflexivity.
Defined.

(** X2 at work on the engine with the three callbacks set. *)
Lemma start_then_stop_witness :
  trace_of (start_listening (P := Sample.platform) None Trial.idle_with_callbacks)
  = [ThreadStart; Callback ListeningStarted; Log Info "Started listening for speech"]
  /\ trace_of (stop_listening (P := Sample.platform)
                 (state_of (start_listening (P := Sample.platform) None
                              Trial.idle_with_callbacks)))
     = [ThreadJoin; Callback ListeningStopped; Log Info "Stopped listening for speech"].
Proof.
  destruct (start_then_stop (P := Sample.platform) Trial.idle_with_callbacks
              Sample.one_segment_whisper None eq_refl eq_refl eq_refl)
    as (Hstart & Hstop).
  - intros e H. discriminate H.
  - intros e H. discriminate H.
  - rewrite Hstart. cbn [state_of trace_of fst snd]. rewrite Hstop.
    split; reflexivity.
Defined.

(** X3 at work on an engine without a model. *)
Lemma start_refused_witness :
  exists msg,
    start_listening (P := Sample.platform) (Some (fun _ => Returns tt))
      (set_whisper_model None Sample.idle)
    = (Returns tt, set_whisper_model None Sample.idle, [Log Error msg]).
Proof.
  apply (start_refused (P := Sample.platform)); [reflexivity | left; reflexivity].
Defined.

(** X4 at work on the engine whose callbacks raise. *)
Lemma lifecycle_callback_raises_witness :
  result_of (start_listening (P := Sample.platform) None Trial.idle_raising_callbacks)
  = Raises (ExternalError "callback failure")
  /\ is_listening
       (state_of (start_listening (P := Sample.platform) None
                    Trial.idle_raising_callbacks)) = true.
Proof.
  destruct (lifecycle_callback_raises (P := Sample.platform)
              Trial.idle_raising_callbacks (ExternalError "callback failure"))
    as (Hstart & _).
  destruct (Hstart Sample.one_segment_whisper None eq_refl eq_refl eq_refl eq_refl)
    as (Hres & Hon & _).
  split; assumption.
Defined.


(** X6 at work: a chunk duration of zero, and the smallest positive
    float as chunk duration, for which [2.0 / 5e-324] is infinite. *)
Lemma recording_loop_escapes_witness :
  _recording_loop (P := Sample.platform) (fun _ => Returns tt)
    [Got Sample.speech_chunk] Trial.listening_zero_chunk
  = (Raises ZeroDivisionError, Trial.listening_zero_chunk, [])
  /\ _recording_loop (P := Sample.platform) (fun _ => Returns tt)
       [Got Sample.speech_chunk] Trial.listening_tiny_chunk
     = (Raises OverflowError, Trial.listening_tiny_chunk, []).
Proof.
  split.
  - destruct (recording_loop_escapes (P := Sample.platform)
                Trial.listening_zero_chunk (fun _ => Returns tt)
                [Got Sample.speech_chunk]) as (_ & Hmax & _).
    apply (Hmax 0); vm_compute; reflexivity.
  - destruct (recording_loop_escapes (P := Sample.platform)
                Trial.listening_tiny_chunk (fun _ => Returns tt)
                [Got Sample.speech_chunk]) as (_ & Hmax & _).
    apply (Hmax 0); vm_compute; reflexivity.
Defined.

(** The two computations at work on decimal chunk durations: the float
    quotient [2.0 / 0.1] is [20.0] although the float [0.1] is larger
    than a tenth, and the float product [16000 * 0.03] is [480.0]
    although the float [0.03] is smaller than three hundredths. *)
Example float_rounding_at_work :
  max_silence_chunks_of Trial.cfg_tenth = Returns 20
  /\ max_silence_chunks_of Trial.cfg_tenth_exact = Returns 20
  /\ chunk_size_of Trial.cfg_tenth = Returns 1600
  /\ chunk_size_of Trial.cfg_30ms = Returns 480
  /\ max_silence_chunks_of VoiceConfig_default = Returns 4
  /\ chunk_size_of VoiceConfig_default = Returns 8000
  /\ chunk_size_of Trial.cfg_tiny_chunk = Returns 0
  /\ max_silence_chunks_of Trial.cfg_tiny_chunk = Raises OverflowError.
Proof. repeat split; vm_compute; reflexivity. Qed.

(** X8 at work. *)
Lemma speech_chunks_conserved_witness :
  exists final t,
    while_listening (P := Sample.platform) 4
      [Got Sample.silence_chunk; Got Sample.speech_chunk; QueueEmpty;
       Got Sample.silence_chunk; Got Sample.speech_chunk]
      Locals_initial Sample.listening
    = (Returns final, Sample.listening, t)
    /\ filter (verdict (P := Sample.platform) Sample.listening)
         (List.concat (utterances t) ++ audio_buffer final)
       = filter (verdict (P := Sample.platform) Sample.listening)
           (chunks_of [Got Sample.silence_chunk; Got Sample.speech_chunk; QueueEmpty;
                       Got Sample.silence_chunk; Got Sample.speech_chunk]).
Proof.
  apply (speech_chunks_conserved (P := Sample.platform)). reflexivity.
Defined.

(** X10 at work: two silent chunks before the speech. *)
Lemma leading_silence_dropped_witness :
  exists final final' t t',
    while_listening (P := Sample.platform) 4
      (map Got [Sample.silence_chunk; Sample.silence_chunk]
       ++ [Got Sample.speech_chunk]) Locals_initial Sample.listening
    = (Returns final, Sample.listening, t)
    /\ while_listening (P := Sample.platform) 4 [Got Sample.speech_chunk]
         Locals_initial Sample.listening
       = (Returns final', Sample.listening, t')
    /\ utterances t = utterances t'
    /\ audio_buffer final = audio_buffer final'.
Proof.
  apply (leading_silence_dropped (P := Sample.platform)); [reflexivity|].
  repeat constructor; vm_compute; reflexivity.
Defined.

(** X11 at work with a threshold of two chunks and a pause of one. *)
Lemma pause_within_utterance_witness :
  exists t,
    while_listening (P := Sample.platform) 2
      (map Got ([Sample.speech_chunk] ++ [Sample.silence_chunk]
                ++ [Sample.speech_chunk]
                ++ [Sample.silence_chunk; Sample.silence_chunk]))
      Locals_initial Sample.listening
    = (Returns Locals_initial, Sample.listening, t)
    /\ utterances t
       = [[Sample.speech_chunk] ++ [Sample.silence_chunk] ++ [Sample.speech_chunk]
          ++ [Sample.silence_chunk; Sample.silence_chunk]].
Proof.
  apply (pause_within_utterance (P := Sample.platform) Sample.listening 2);
    try (repeat constructor; vm_compute; reflexivity);
    try discriminate; reflexivity.
Defined.

(** X12 at work: the model hears [" hello "]; it hears a text with a
    no-break space and an ideographic space at its ends; it hears a
    no-break space alone. *)
Lemma speech_event_is_stripped_text_witness :
  speech_events
    (trace_of (_process_audio_buffer (P := Sample.platform) [Sample.speech_chunk]
                 Trial.listening_with_callback))
  = ["hello"]
  /\ speech_events
       (trace_of (_process_audio_buffer (P := Sample.platform) [Sample.speech_chunk]
                    (set_whisper_model (Some Trial.edged_whisper)
                       Trial.listening_with_callback)))
     = ["hello"]
  /\ speech_events
       (trace_of (_process_audio_buffer (P := Sample.platform) [Sample.speech_chunk]
                    (set_whisper_model (Some Trial.blank_whisper)
                       Trial.listening_with_callback)))
     = [].
Proof.
  assert (Hne : [Sample.speech_chunk] <> []) by discriminate.
  split; [|split].
  - destruct (speech_event_is_stripped_text (P := Sample.platform)
                Trial.listening_with_callback [Sample.speech_chunk]
                (List.concat [Sample.speech_chunk]) Sample.one_segment_whisper
                [" hello "] (fun _ => Returns tt)
                Hne eq_refl eq_refl eq_refl eq_refl)
      as (_ & _ & Hevents).
    exact Hevents.
  - destruct (speech_event_is_stripped_text (P := Sample.platform)
                (set_whisper_model (Some Trial.edged_whisper)
                   Trial.listening_with_callback) [Sample.speech_chunk]
                (List.concat [Sample.speech_chunk]) Trial.edged_whisper
                [Trial.edged_text] (fun _ => Returns tt)
                Hne eq_refl eq_refl eq_refl eq_refl)
      as (_ & _ & Hevents).
    exact Hevents.
  - destruct (speech_event_is_stripped_text (P := Sample.platform)
                (set_whisper_model (Some Trial.blank_whisper)
                   Trial.listening_with_callback) [Sample.speech_chunk]
                (List.concat [Sample.speech_chunk]) Trial.blank_whisper
                [Trial.no_break_space] (fun _ => Returns tt)
                Hne eq_refl eq_refl eq_refl eq_refl)
      as (_ & _ & Hevents).
    exact Hevents.
Defined.

(** X14 at work on an engine without a model, and on a file in which the
    model hears a text with Unicode whitespace at its ends. *)
Lemma transcribe_file_total_witness :
  (exists text t,
     transcribe_file (P := Sample.platform) (fun _ => Returns [" hello "])
       "/tmp/a.wav" (set_whisper_model None Sample.idle)
     = (Returns text, set_whisper_model None Sample.idle, t)
     /\ text = "" /\ t = [Log Error "Whisper model not available"])
  /\ transcribe_file (P := Sample.platform) (fun _ => Returns [Trial.edged_text])
       "/tmp/a.wav" Sample.idle
     = (Returns "hello", Sample.idle, []).
Proof.
  split.
  - destruct (transcribe_file_total (P := Sample.platform)
                (set_whisper_model None Sample.idle)
                (fun _ => Returns [" hello "]) "/tmp/a.wav")
      as (text & t & Hrun & _ & Hnone & _).
    exists text, t. split; [exact Hrun|]. apply Hnone. reflexivity.
  - destruct (transcribe_file_total (P := Sample.platform) Sample.idle
                (fun _ => Returns [Trial.edged_text]) "/tmp/a.wav")
      as (text & t & Hrun & _ & _ & _ & Hsegments).
    destruct (Hsegments [Trial.edged_text]) as [Htext Ht];
      [discriminate | reflexivity |].
    rewrite Hrun, Htext, Ht. reflexivity.
Defined.

(** X15 at work on the engine before any key is set. *)
Lemma tts_unavailable_inert_witness :
  run_calls (P := Sample.platform) (Sample.calls 3) Sample.idle = Sample.idle.
Proof.
  apply (tts_unavailable_inert (P := Sample.platform) Sample.idle).
  left. reflexivity.
Defined.

(** X17 at work: in the sample process the hash is the length, so
    ["ab"] and ["cd"] collide. *)
Lemma hash_collision_shares_entry_witness :
  text_to_speech (P := Sample.platform) Sample.failing_generate "cd" None
    (state_of (text_to_speech (P := Sample.platform) Sample.echo_generate "ab" None
                 Sample.configured))
  = (Returns (Some (repeat Byte.x2a 2)),
     state_of (text_to_speech (P := Sample.platform) Sample.echo_generate "ab" None
                 Sample.configured),
     []).
Proof.
  apply (hash_collision_shares_entry (P := Sample.platform) Sample.configured _
           Sample.echo_generate "ab" "cd" None (repeat Byte.x2a 2)
           [Synthesize "ab" "21m00Tcm4TlvDq8ikWAM"]).
  - reflexivity.
  - vm_compute. reflexivity.
Defined.

(** X18 at work. *)
Lemma cache_key_injective_witness :
  cache_key (P := Sample.platform) "voice:1" "ab"
  = cache_key (P := Sample.platform) "voice:1" "cd".
Proof.
  apply (cache_key_injective (P := Sample.platform) "voice:1" "voice:1" "ab" "cd").
  split; reflexivity.
Defined.

(** X19 at work on the full cache: the empty text has a hash that is not
    there yet. *)
Lemma eviction_exactly_at_capacity_witness :
  len (tts_cache
         (state_of (text_to_speech (P := Sample.platform) Sample.echo_generate ""
                      None Trial.full))) = 41.
Proof.
  assert (Hconf : elevenlabs_configured Trial.full = true)
    by (vm_compute; reflexivity).
  assert (Hmiss : dict_mem
                    (cache_key (P := Sample.platform)
                       (str_or None (elevenlabs_voice_id (config Trial.full))) "")
                    (tts_cache Trial.full) = false)
    by (vm_compute; reflexivity).
  assert (Hlen50 : len (tts_cache Trial.full) = 50) by (vm_compute; reflexivity).
  destruct (eviction_exactly_at_capacity (P := Sample.platform) Trial.full
              Sample.echo_generate "" None [] Hconf eq_refl Hmiss eq_refl)
    as (Hfull & _).
  destruct (Hfull Hlen50) as (_ & Hlen).
  exact Hlen.
Defined.

(** X20 at work on the full cache: ["a"] has the oldest key. *)
Lemma hit_does_not_refresh_witness :
  dict_mem (call_key (P := Sample.platform) Trial.full (Trial.call "a"))
    (tts_cache (run_calls (P := Sample.platform)
                  [Trial.call "a"; Trial.call ""] Trial.full))
  = false.
Proof.
  destruct (hit_does_not_refresh (P := Sample.platform) Trial.full
              (Trial.call "a") (Trial.call "")) as (_ & _ & Hgone & _).
  - vm_compute. reflexivity.
  - reflexivity.
  - apply distinct_NoDup. vm_compute. reflexivity.
  - vm_compute. reflexivity.
  - vm_compute. left. reflexivity.
  - vm_compute. intuition discriminate.
  - eexists. reflexivity.
  - exact Hgone.
Defined.

(** X21 at work: two voices share an identifier. *)
Lemma voices_listing_witness :
  exists d t,
    get_available_voices (P := Sample.platform)
      (Returns [("v1", "Rachel"); ("v2", "Adam"); ("v1", "Bella")])
      Sample.configured
    = (Returns d, Sample.configured, t)
    /\ dict_get "v1" d = Some "Bella".
Proof.
  destruct (voices_listing (P := Sample.platform) Sample.configured
              (Returns [("v1", "Rachel"); ("v2", "Adam"); ("v1", "Bella")]))
    as (d & t & Hrun & _ & _ & _ & Hlist).
  exists d, t. split; [exact Hrun|].
  destruct (Hlist _ eq_refl eq_refl eq_refl) as (_ & Hget).
  rewrite Hget. reflexivity.
Defined.

(** X22 at work: [sd.read] raises, the file stays. *)
Lemma play_audio_temp_file_witness :
  files_created
    (trace_of (play_audio (P := Sample.platform) Trial.unreadable_device []
                 Sample.idle)) = ["/tmp/tmpa.wav"]
  /\ files_removed
       (trace_of (play_audio (P := Sample.platform) Trial.unreadable_device []
                    Sample.idle)) = [].
Proof.
  destruct (play_audio_temp_file (P := Sample.platform) Sample.idle
              Trial.unreadable_device []) as (_ & _ & _ & Hfile).
  destruct (Hfile "/tmp/tmpa.wav" eq_refl eq_refl) as (Hcreated & _ & Hleft).
  split; [exact Hcreated|].
  apply Hleft. intros (_ & _ & (data & fs & Hread & _) & _). discriminate Hread.
Defined.
